(** * Rejseplanen MCP server: the request helper and its five tool handlers

    A shallow embedding of [src/server.py].  Python values are modelled as
    follows.

    - [str] is [string]; a character stands for the code point of the same
      number, and [isspace] is Python's [str.isspace] on those code points.
    - [int] is [Z], [bool] is [bool], [Optional[str]] is [option string].
    - [float] is [PyFloat]: a finite value (a rational), an infinity, or NaN.
      The handlers only compare floats with integer constants, which Python
      does exactly.
    - A [dict] is an object on a heap, addressed by its identity; its contents
      are a [gmap string string].
    - Exceptions are values of [PyExc]; a computation that may raise and may
      mutate the heap or reach the network is a function on [World]. *)

From stdpp Require Import base gmap strings list pretty.
From Stdlib Require Import QArith.

Set Warnings "-register-all".

Open Scope string_scope.
Open Scope Z_scope.
Open Scope list_scope.

(** ** Python strings *)

(** [str.isspace] for one character: TAB..CR, FS..US, SPACE, NEL, NBSP. *)
Definition isspace (c : Ascii.ascii) : bool :=
  let n := Ascii.N_of_ascii c in
  ((9 <=? n) && (n <=? 13) || (28 <=? n) && (n <=? 32) || (n =? 133) || (n =? 160))%N.

Fixpoint lstrip (s : string) : string :=
  match s with
  | EmptyString => EmptyString
  | String c r => if isspace c then lstrip r else s
  end.

Fixpoint rstrip (s : string) : string :=
  match s with
  | EmptyString => EmptyString
  | String c r =>
      match rstrip r with
      | EmptyString => if isspace c then EmptyString else String c EmptyString
      | r' => String c r'
      end
  end.

(** [s.strip()] *)
Definition strip (s : string) : string := rstrip (lstrip s).

(** Every character of [s] is whitespace ([s] may be empty). *)
Fixpoint all_space (s : string) : bool :=
  match s with
  | EmptyString => true
  | String c r => isspace c && all_space r
  end.

(** [s.split()]: the maximal runs of non-whitespace characters. *)
Fixpoint split_go (cur : string) (s : string) : list string :=
  match s with
  | EmptyString => match cur with EmptyString => [] | _ => [cur] end
  | String c r =>
      if isspace c
      then match cur with EmptyString => split_go "" r | _ => cur :: split_go "" r end
      else split_go (cur +:+ String c "") r
  end.

Definition split (s : string) : list string := split_go "" s.

(** Truth value of a [str] and of an [Optional[str]]. *)
Definition truthy (s : string) : bool :=
  match s with EmptyString => false | _ => true end.

Definition truthy_opt (o : option string) : bool :=
  match o with None => false | Some s => truthy s end.

(** ** Python floats *)

Inductive PyFloat : Type :=
  | Fin (q : Q)
  | PosInf
  | NegInf
  | NaN.

Definition float_of_int (n : Z) : PyFloat := Fin (inject_Z n).

(** [x <= y]; every comparison with NaN is false. *)
Definition float_le (x y : PyFloat) : bool :=
  match x, y with
  | NaN, _ | _, NaN => false
  | NegInf, _ => true
  | _, PosInf => true
  | Fin a, Fin b => Qle_bool a b
  | PosInf, _ => false
  | Fin _, NegInf => false
  end.

(** ** Exceptions *)

(** The exception classes that can reach the handlers: the builtins, and the
    hierarchy of [requests.exceptions]. *)
Inductive ExcClass : Type :=
  | ClsException
  | ClsValueError
  | ClsTypeError
  | ClsIndexError
  | ClsOSError
  | ClsKeyboardInterrupt
  | ClsJsonJSONDecodeError
  | ClsRequestException
  | ClsTimeout
  | ClsConnectionError
  | ClsConnectTimeout
  | ClsReadTimeout
  | ClsHTTPError
  | ClsInvalidJSONError
  | ClsRequestsJSONDecodeError.

#[global] Instance ExcClass_eq_dec : EqDecision ExcClass.
Proof. solve_decision. Defined.

(** The class itself followed by its ancestors below [BaseException]. *)
Definition mro (c : ExcClass) : list ExcClass :=
  match c with
  | ClsException => [ClsException]
  | ClsValueError => [ClsValueError; ClsException]
  | ClsTypeError => [ClsTypeError; ClsException]
  | ClsIndexError => [ClsIndexError; ClsException]
  | ClsOSError => [ClsOSError; ClsException]
  | ClsKeyboardInterrupt => [ClsKeyboardInterrupt]
  | ClsJsonJSONDecodeError => [ClsJsonJSONDecodeError; ClsValueError; ClsException]
  | ClsRequestException => [ClsRequestException; ClsOSError; ClsException]
  | ClsTimeout => [ClsTimeout; ClsRequestException; ClsOSError; ClsException]
  | ClsConnectionError =>
      [ClsConnectionError; ClsRequestException; ClsOSError; ClsException]
  | ClsConnectTimeout =>
      [ClsConnectTimeout; ClsConnectionError; ClsTimeout; ClsRequestException;
       ClsOSError; ClsException]
  | ClsReadTimeout =>
      [ClsReadTimeout; ClsTimeout; ClsRequestException; ClsOSError; ClsException]
  | ClsHTTPError => [ClsHTTPError; ClsRequestException; ClsOSError; ClsException]
  | ClsInvalidJSONError =>
      [ClsInvalidJSONError; ClsRequestException; ClsOSError; ClsException]
  | ClsRequestsJSONDecodeError =>
      [ClsRequestsJSONDecodeError; ClsInvalidJSONError; ClsRequestException;
       ClsOSError; ClsJsonJSONDecodeError; ClsValueError; ClsException]
  end.

(** An exception object: its class and [str(e)]. *)
Record PyExc : Type := mkExc { exc_class : ExcClass; exc_str : string }.

Definition isinstance (e : PyExc) (c : ExcClass) : bool :=
  bool_decide (c ∈ mro (exc_class e)).

Definition Exception (msg : string) : PyExc := mkExc ClsException msg.
Definition ValueError (msg : string) : PyExc := mkExc ClsValueError msg.
Definition TypeError (msg : string) : PyExc := mkExc ClsTypeError msg.
Definition IndexError (msg : string) : PyExc := mkExc ClsIndexError msg.
Definition HTTPError (msg : string) : PyExc := mkExc ClsHTTPError msg.

(** ** JSON values, passed through undecoded *)

Inductive JSON : Type :=
  | JNull
  | JBool (b : bool)
  | JNumber (literal : string)
  | JString (s : string)
  | JArray (items : list JSON)
  | JObject (members : list (string * JSON)).

(** ** The world a call runs in *)

Record Request : Type := mkRequest {
  req_url : string;
  req_params : gmap string string;
  req_timeout : Z
}.

Record Response : Type := mkResponse {
  status_code : Z;
  reason : string;
  resp_url : string;
  text : string
}.

(** What one GET meets: an exception out of [requests.get], or a response. *)
Inductive Upstream : Type :=
  | GetRaises (e : PyExc)
  | GetReturns (r : Response).

Record World : Type := mkWorld {
  heap : list (gmap string string);   (* dict objects, by identity *)
  sent : list Request;                (* outbound GETs, oldest first *)
  os_environ : gmap string string;
  sys_version : string
}.

Inductive result (A : Type) : Type :=
  | Ok (a : A)
  | Raise (e : PyExc).
Arguments Ok {A} a.
Arguments Raise {A} e.

Definition M (A : Type) : Type := World → result A * World.

#[global] Instance M_ret : MRet M := λ A a w, (Ok a, w).

#[global] Instance M_bind : MBind M := λ A B f m w,
  match m w with
  | (Ok a, w') => f a w'
  | (Raise e, w') => (Raise e, w')
  end.

Definition raise {A : Type} (e : PyExc) : M A := λ w, (Raise e, w).

(** [try: body  except ...: handler e]; the handler sees the world as the
    body left it. *)
Definition try_except {A : Type} (body : M A) (handler : PyExc → M A) : M A :=
  λ w, match body w with
       | (Ok a, w') => (Ok a, w')
       | (Raise e, w') => handler e w'
       end.

(** [{...}]: a new dict object. *)
Definition dict_new (d : gmap string string) : M nat := λ w,
  (Ok (length (heap w)),
   mkWorld (heap w ++ [d]) (sent w) (os_environ w) (sys_version w)).

(** [params[k] = v] *)
Definition dict_setitem (params : nat) (k v : string) : M unit := λ w,
  match heap w !! params with
  | Some d =>
      (Ok (),
       mkWorld (<[params := <[k := v]> d]> (heap w)) (sent w)
               (os_environ w) (sys_version w))
  | None => (Raise (TypeError "object does not support item assignment"), w)
  end.

(** The dict behind a reference, as [requests] reads it to build the query. *)
Definition dict_items (params : nat) : M (gmap string string) := λ w,
  match heap w !! params with
  | Some d => (Ok d, w)
  | None => (Raise (TypeError "object is not a mapping"), w)
  end.

(** [os.environ.get(k, default)] *)
Definition os_environ_get (k fallback : string) : M string := λ w,
  (Ok (default fallback (os_environ w !! k)), w).

(** [sys.version] *)
Definition sys_version_get : M string := λ w, (Ok (sys_version w), w).

(** [xs[i]] *)
Definition list_getitem (xs : list string) (i : nat) : M string := λ w,
  match xs !! i with
  | Some x => (Ok x, w)
  | None => (Raise (IndexError "list index out of range"), w)
  end.

(** ** What lies outside the program

    The upstream service together with the network in front of it, the JSON
    decoder behind [Response.json], and [str] on a float. *)
Class Platform : Type := {
  upstream : Request → Upstream;
  json_loads : string → result JSON;
  str_float : PyFloat → string
}.

(** [str(n)] for an [int]. *)
Definition str_int (n : Z) : string := pretty n.

(** One outbound GET: it is recorded, and the platform answers it. *)
Definition send `{Platform} (req : Request) : M Response := λ w,
  let w' := mkWorld (heap w) (sent w ++ [req]) (os_environ w) (sys_version w) in
  match upstream req with
  | GetRaises e => (Raise e, w')
  | GetReturns r => (Ok r, w')
  end.

(** [requests.get(url, params=params, timeout=timeout)]: the query is the
    dict's contents as they are at the call. *)
Definition requests_get `{Platform} (url : string) (params : nat) (timeout : Z)
  : M Response :=
  d ← dict_items params;
  send (mkRequest url d timeout).

(** [Response.raise_for_status]: an [HTTPError] for a 4xx or 5xx status. *)
Definition raise_for_status (r : Response) : M () :=
  if (400 <=? status_code r) && (status_code r <? 500) then
    raise (HTTPError (str_int (status_code r) +:+ " Client Error: " +:+ reason r
                      +:+ " for url: " +:+ resp_url r))
  else if (500 <=? status_code r) && (status_code r <? 600) then
    raise (HTTPError (str_int (status_code r) +:+ " Server Error: " +:+ reason r
                      +:+ " for url: " +:+ resp_url r))
  else mret ().

(** [Response.json] *)
Definition json `{Platform} (r : Response) : M JSON := λ w,
  (json_loads (text r), w).

(** ** The program *)

Definition REJSEPLANEN_API_BASE : string :=
  "https://xmlopen.rejseplanen.dk/bin/rest.exe".

Definition REQUEST_TIMEOUT : Z := 30.

(** The three [except] clauses of [make_api_request], tried in order; an
    exception that matches none of them propagates. *)
Definition make_api_request_except (e : PyExc) : M JSON :=
  if isinstance e ClsTimeout then
    raise (Exception ("Request to Rejseplanen API timed out after "
                      +:+ str_int REQUEST_TIMEOUT +:+ " seconds"))
  else if isinstance e ClsRequestException then
    raise (Exception ("Rejseplanen API request failed: " +:+ exc_str e))
  else if isinstance e ClsValueError then
    raise (Exception ("Failed to parse JSON response: " +:+ exc_str e))
  else raise e.

Definition make_api_request `{Platform} (endpoint : string) (params : nat)
  : M JSON :=
  dict_setitem params "format" "json";;
  let url := REJSEPLANEN_API_BASE +:+ "/" +:+ endpoint in
  try_except
    (response ← requests_get url params REQUEST_TIMEOUT;
     raise_for_status response;;
     json response)
    make_api_request_except.

Definition location_search `{Platform} (query : string) : M JSON :=
  if negb (truthy query) || negb (truthy (strip query)) then
    raise (ValueError "Search query cannot be empty")
  else
    params ← dict_new {[ "input" := strip query ]};
    make_api_request "location" params.

(** ['1' if flag else '0'] *)
Definition flag (b : bool) : string := if b then "1" else "0".

(** [if value: params[key] = value] *)
Definition set_if_truthy (params : nat) (key : string) (value : option string)
  : M () :=
  match value with
  | Some v => if truthy v then dict_setitem params key v else mret ()
  | None => mret ()
  end.

Definition trip_search `{Platform} (origin_id dest_id : string)
    (date time : option string) (use_train use_bus use_metro use_ferry : bool)
  : M JSON :=
  if negb (truthy origin_id) || negb (truthy (strip origin_id)) then
    raise (ValueError "origin_id is required")
  else if negb (truthy dest_id) || negb (truthy (strip dest_id)) then
    raise (ValueError "dest_id is required")
  else
    params ← dict_new (<[ "destId" := strip dest_id ]>
                        {[ "originId" := strip origin_id ]});
    set_if_truthy params "date" date;;
    set_if_truthy params "time" time;;
    dict_setitem params "useTog" (flag use_train);;
    dict_setitem params "useBus" (flag use_bus);;
    dict_setitem params "useMetro" (flag use_metro);;
    dict_setitem params "useFerry" (flag use_ferry);;
    make_api_request "trip" params.

Definition departure_board `{Platform} (station_id : string)
    (date time : option string) : M JSON :=
  if negb (truthy station_id) || negb (truthy (strip station_id)) then
    raise (ValueError "station_id is required")
  else
    params ← dict_new {[ "id" := strip station_id ]};
    set_if_truthy params "date" date;;
    set_if_truthy params "time" time;;
    make_api_request "departureBoard" params.

Definition nearby_stops `{Platform} (latitude longitude : PyFloat)
    (max_radius max_number : Z) : M JSON :=
  if negb (float_le (float_of_int (-90)) latitude
           && float_le latitude (float_of_int 90)) then
    raise (ValueError "Latitude must be between -90 and 90")
  else if negb (float_le (float_of_int (-180)) longitude
                && float_le longitude (float_of_int 180)) then
    raise (ValueError "Longitude must be between -180 and 180")
  else if max_radius <? 1 then
    raise (ValueError "max_radius must be at least 1 meter")
  else
    let max_radius := if 10000 <? max_radius then 10000 else max_radius in
    if max_number <? 1 then
      raise (ValueError "max_number must be at least 1")
    else
      let max_number := if 50 <? max_number then 50 else max_number in
      params ← dict_new (<[ "maxNumber" := str_int max_number ]>
                          (<[ "maxRadius" := str_int max_radius ]>
                            (<[ "coordY" := str_float latitude ]>
                              {[ "coordX" := str_float longitude ]})));
      make_api_request "stopsNearby" params.

Record ServerInfo : Type := mkServerInfo {
  server_name : string;
  version : string;
  environment : string;
  python_version : string;
  api_base : string;
  transport : string;
  tools : list string;
  description : string
}.

Definition get_server_info : M ServerInfo :=
  env ← os_environ_get "ENVIRONMENT" "development";
  sysver ← sys_version_get;
  pyver ← list_getitem (split sysver) 0;
  mret (mkServerInfo
          "Rejseplanen MCP Server"
          "1.0.0"
          env
          pyver
          REJSEPLANEN_API_BASE
          "HTTP (Stateless)"
          ["location_search"; "trip_search"; "departure_board"; "nearby_stops";
           "get_server_info"]
          "MCP server for Danish public transportation via Rejseplanen.dk API 2.0").

(** ** Sample platforms and worlds, for concrete runs *)

(** A decoder that knows two documents and rejects the rest the way
    [requests] 2.27 and later does. *)
Definition sample_json_loads (s : string) : result JSON :=
  if String.eqb s "null" then Ok JNull
  else if String.eqb s "{}" then Ok (JObject [])
  else Raise (mkExc ClsRequestsJSONDecodeError
                    "Expecting value: line 1 column 1 (char 0)").

(** [str] on the floats with at most one decimal digit. *)
Definition sample_str_float (x : PyFloat) : string :=
  match x with
  | Fin q =>
      let tenths := (Z.abs (Qnum q) * 10) / Z.pos (Qden q) in
      (if Qnum q <? 0 then "-" else "")
      +:+ str_int (tenths / 10) +:+ "." +:+ str_int (tenths mod 10)
  | PosInf => "inf"
  | NegInf => "-inf"
  | NaN => "nan"
  end.

(** The platform on which every GET meets [u]. *)
Definition platform_of (u : Upstream) : Platform :=
  {| upstream := λ _, u;
     json_loads := sample_json_loads;
     str_float := sample_str_float |}.

Definition response_ok : Response :=
  mkResponse 200 "OK" "https://xmlopen.rejseplanen.dk/bin/rest.exe/location" "{}".

Definition response_500 (body : string) : Response :=
  mkResponse 500 "Internal Server Error"
             "https://xmlopen.rejseplanen.dk/bin/rest.exe/location" body.

Definition response_304 : Response :=
  mkResponse 304 "Not Modified"
             "https://xmlopen.rejseplanen.dk/bin/rest.exe/location" "null".

Definition response_garbled : Response :=
  mkResponse 200 "OK" "https://xmlopen.rejseplanen.dk/bin/rest.exe/location"
             "<html>".

Definition platform_ok : Platform := platform_of (GetReturns response_ok).

Definition connection_refused : PyExc :=
  mkExc ClsConnectionError "Connection refused".

Definition read_timed_out : PyExc :=
  mkExc ClsReadTimeout "Read timed out. (read timeout=30)".

(** A fresh process: nothing allocated, nothing sent. *)
Definition world0 : World :=
  mkWorld [] [] ∅ "3.11.4 (main, Jun  7 2023, 10:13:09) [GCC 12.2.0]".

(** A caller that already holds a dict, with a [format] of its own. *)
Definition world_caller : World :=
  mkWorld [ {[ "format" := "xml" ]} ] [] ∅
          "3.11.4 (main, Jun  7 2023, 10:13:09) [GCC 12.2.0]".

(** ** Vocabulary for the statements *)

(** The GET that [make_api_request endpoint] issues for a dict holding [d]. *)
Definition api_request (endpoint : string) (d : gmap string string) : Request :=
  mkRequest (REJSEPLANEN_API_BASE +:+ "/" +:+ endpoint)
            (<[ "format" := "json" ]> d) REQUEST_TIMEOUT.

(** The world after that call, when [params] held [d] before it. *)
Definition after_request (endpoint : string) (params : nat)
    (d : gmap string string) (w : World) : World :=
  mkWorld (<[ params := <[ "format" := "json" ]> d ]> (heap w))
          (sent w ++ [api_request endpoint d])
          (os_environ w) (sys_version w).

(** The world after a handler built a dict holding [d] and requested with it. *)
Definition after_handler (endpoint : string) (d : gmap string string)
    (w : World) : World :=
  mkWorld (heap w ++ [<[ "format" := "json" ]> d])
          (sent w ++ [api_request endpoint d])
          (os_environ w) (sys_version w).

(** [if value: d[key] = value], on the contents. *)
Definition with_optional (key : string) (value : option string)
    (d : gmap string string) : gmap string string :=
  match value with
  | Some v => if truthy v then <[ key := v ]> d else d
  | None => d
  end.

(** The error kinds of the specification, read on the exception classes the
    program raises. *)
Definition InvalidArgument (e : PyExc) : Prop := exc_class e = ClsValueError.

(** [x] lies in the closed interval from [lo] to [hi]. *)
Definition in_range (lo hi : Z) (x : PyFloat) : Prop :=
  ∃ q : Q, x = Fin q ∧ (inject_Z lo <= q)%Q ∧ (q <= inject_Z hi)%Q.

(** The world after a dict literal holding [d] was evaluated. *)
Definition alloc (d : gmap string string) (w : World) : World :=
  mkWorld (heap w ++ [d]) (sent w) (os_environ w) (sys_version w).

(** The contents of the dict that each handler hands to the helper. *)
Definition location_params (query : string) : gmap string string :=
  {[ "input" := strip query ]}.

Definition trip_params (origin_id dest_id : string) (date time : option string)
    (use_train use_bus use_metro use_ferry : bool) : gmap string string :=
  <[ "useFerry" := flag use_ferry ]>
    (<[ "useMetro" := flag use_metro ]>
      (<[ "useBus" := flag use_bus ]>
        (<[ "useTog" := flag use_train ]>
          (with_optional "time" time
            (with_optional "date" date
              (<[ "destId" := strip dest_id ]>
                {[ "originId" := strip origin_id ]})))))).

Definition board_params (station_id : string) (date time : option string)
  : gmap string string :=
  with_optional "time" time
    (with_optional "date" date {[ "id" := strip station_id ]}).

Definition stops_params `{Platform} (latitude longitude : PyFloat)
    (max_radius max_number : Z) : gmap string string :=
  <[ "maxNumber" := str_int (Z.min max_number 50) ]>
    (<[ "maxRadius" := str_int (Z.min max_radius 10000) ]>
      (<[ "coordY" := str_float latitude ]>
        {[ "coordX" := str_float longitude ]})).

(** No character of [s] is whitespace. *)
Fixpoint no_space (s : string) : bool :=
  match s with
  | EmptyString => true
  | String c r => negb (isspace c) && no_space r
  end.

(** More sample values. *)
Definition keyboard_interrupt : PyExc := mkExc ClsKeyboardInterrupt "".

Definition connect_timed_out : PyExc :=
  mkExc ClsConnectTimeout "Connection to xmlopen.rejseplanen.dk timed out.".

(** A process started with [ENVIRONMENT] set, to the empty string. *)
Definition world_unlabelled : World :=
  mkWorld [] [] {[ "ENVIRONMENT" := "" ]}
          "3.12.1 (main, Dec  8 2023, 05:40:51) [GCC 11.4.0]".

(** The platform answers [req] with a response that passes
    [raise_for_status] and whose body decodes to [v]. *)
Definition delivers `{Platform} (req : Request) (v : JSON) : Prop :=
  ∃ r, upstream req = GetReturns r
       ∧ ¬ (400 ≤ status_code r < 600)
       ∧ json_loads (text r) = Ok v.

(** The first character of [s] is whitespace. *)
Definition head_is_space (s : string) : bool :=
  match s with
  | EmptyString => false
  | String c _ => isspace c
  end.

(** The last character of [s] is whitespace. *)
Fixpoint last_is_space (s : string) : bool :=
  match s with
  | EmptyString => false
  | String c EmptyString => isspace c
  | String _ r => last_is_space r
  end.

(** [v] is [raw] trimmed: [raw] without a blank prefix and a blank suffix,
    and [v] itself has whitespace at neither end. *)
Definition trimmed_of (raw v : string) : Prop :=
  (∃ a b, raw = a +:+ v +:+ b ∧ all_space a = true ∧ all_space b = true)
  ∧ head_is_space v = false
  ∧ last_is_space v = false.

(** Closes a goal saying that a handler call is rejected as it stands. *)
Ltac rejected := eexists; split; reflexivity.

(** ** Facts about strings *)

Lemma lstrip_nil_iff (s : string) : lstrip s = "" ↔ all_space s = true.
Proof.
  induction s as [|c r IH]; simpl; [tauto|].
  destruct (isspace c); simpl; [exact IH|].
  split; intros; discriminate.
Qed.

Lemma rstrip_nil_iff (s : string) : rstrip s = "" ↔ all_space s = true.
Proof.
  induction s as [|c r IH]; simpl; [tauto|].
  destruct (rstrip r) eqn:Hr.
  - destruct (isspace c); simpl.
    + split; intros _; [apply IH|]; reflexivity.
    + split; intros; discriminate.
  - split; [discriminate|].
    intros Hs. apply andb_true_iff in Hs as [_ Hs].
    apply IH in Hs. discriminate.
Qed.

Lemma all_space_lstrip (s : string) : all_space (lstrip s) = all_space s.
Proof.
  induction s as [|c r IH]; simpl; [reflexivity|].
  destruct (isspace c) eqn:Hc; simpl; [exact IH|].
  by rewrite Hc.
Qed.

Lemma strip_nil_iff (s : string) : strip s = "" ↔ all_space s = true.
Proof. unfold strip. by rewrite rstrip_nil_iff, all_space_lstrip. Qed.

(** The test [not s or not s.strip()] holds exactly for the blank strings. *)
Lemma blank_test (s : string) :
  negb (truthy s) || negb (truthy (strip s)) = all_space s.
Proof.
  destruct (all_space s) eqn:Hs.
  - apply strip_nil_iff in Hs. rewrite Hs. simpl. apply orb_true_r.
  - assert (strip s ≠ "") as Hne.
    { intros Hn. apply strip_nil_iff in Hn. congruence. }
    assert (s ≠ "") as Hne'.
    { intros ->. discriminate. }
    destruct s; [done|]. destruct (strip _); [done|]. reflexivity.
Qed.

Lemma append_cons (c : Ascii.ascii) (a b : string) :
  String c a +:+ b = String c (a +:+ b).
Proof. reflexivity. Qed.

Lemma append_nil_l (b : string) : "" +:+ b = b.
Proof. reflexivity. Qed.

Lemma lstrip_split (s : string) :
  ∃ a, s = a +:+ lstrip s ∧ all_space a = true.
Proof.
  induction s as [|c r (a & Ha & Hsp)]; simpl.
  - by exists "".
  - destruct (isspace c) eqn:Hc.
    + exists (String c a). simpl. rewrite Hc, Hsp, append_cons.
      split; [by f_equal|done].
    + by exists "".
Qed.

Lemma rstrip_split (s : string) :
  ∃ b, s = rstrip s +:+ b ∧ all_space b = true.
Proof.
  induction s as [|c r (b & Hb & Hsp)]; simpl.
  - by exists "".
  - destruct (rstrip r) eqn:Hr.
    + destruct (isspace c) eqn:Hc.
      * exists (String c b). simpl. rewrite Hc, Hsp, append_nil_l in *.
        split; [by f_equal|done].
      * exists b. rewrite append_cons, append_nil_l in *.
        split; [by f_equal|done].
    + exists b. rewrite append_cons. split; [by f_equal|done].
Qed.

(** Stripping removes a blank prefix and a blank suffix and nothing else. *)
Lemma strip_split (s : string) :
  ∃ a b, s = a +:+ strip s +:+ b ∧ all_space a = true ∧ all_space b = true.
Proof.
  destruct (lstrip_split s) as (a & Ha & Hsa).
  destruct (rstrip_split (lstrip s)) as (b & Hb & Hsb).
  exists a, b. unfold strip. split; [|done]. by rewrite <- Hb.
Qed.

Lemma head_is_space_lstrip (s : string) : head_is_space (lstrip s) = false.
Proof.
  induction s as [|c r IH]; [done|]. simpl.
  by destruct (isspace c) eqn:Hc.
Qed.

Lemma head_is_space_rstrip (s : string) :
  head_is_space s = false → head_is_space (rstrip s) = false.
Proof.
  destruct s as [|c r]; [done|]. simpl. intros Hc.
  destruct (rstrip r); simpl; [by rewrite Hc|done].
Qed.

Lemma last_is_space_rstrip (s : string) : last_is_space (rstrip s) = false.
Proof.
  induction s as [|c r IH]; [done|]. simpl.
  destruct (rstrip r) as [|c' r'] eqn:Hr.
  - by destruct (isspace c) eqn:Hc.
  - exact IH.
Qed.

(** [s.strip()] is [s] trimmed. *)
Lemma strip_trimmed (s : string) : trimmed_of s (strip s).
Proof.
  split; [apply strip_split|]. unfold strip. split.
  - apply head_is_space_rstrip, head_is_space_lstrip.
  - apply last_is_space_rstrip.
Qed.

(** ** Running the request helper *)

Section helper.
Context `{Platform}.

Lemma except_raises (e : PyExc) (w : World) :
  ∃ e', make_api_request_except e w = (Raise e', w)
        ∧ exc_class e' ≠ ClsValueError.
Proof.
  unfold make_api_request_except.
  destruct (isinstance e ClsTimeout) eqn:Ht; [by eexists|].
  destruct (isinstance e ClsRequestException) eqn:Hr; [by eexists|].
  destruct (isinstance e ClsValueError) eqn:Hv; [by eexists|].
  exists e. split; [done|]. intros Hc.
  unfold isinstance in Hv. rewrite Hc in Hv. done.
Qed.

Lemma raise_for_status_world (r : Response) (w : World) :
  (raise_for_status r w).2 = w.
Proof. unfold raise_for_status. by repeat case_match. Qed.

(** Whatever the platform answers, the helper ends in [after_request]. *)
Lemma make_api_request_world (endpoint : string) (params : nat)
    (d : gmap string string) (w : World) :
  heap w !! params = Some d →
  (make_api_request endpoint params w).2 = after_request endpoint params d w.
Proof.
  intros Hd.
  assert (params < length (heap w))%nat as Hlt by by eapply lookup_lt_Some.
  unfold make_api_request, mbind, M_bind, dict_setitem. rewrite Hd.
  unfold try_except, requests_get, mbind, M_bind, dict_items. cbn.
  rewrite list_lookup_insert_eq by done.
  unfold send. cbn. fold (api_request endpoint d).
  destruct (upstream _) as [e|r].
  - destruct (except_raises e
      (mkWorld (<[params:=<["format":="json"]> d]> (heap w))
               (sent w ++ [api_request endpoint d])
               (os_environ w) (sys_version w))) as (e' & -> & _).
    done.
  - pose proof (raise_for_status_world r
      (mkWorld (<[params:=<["format":="json"]> d]> (heap w))
               (sent w ++ [api_request endpoint d])
               (os_environ w) (sys_version w))) as Hw.
    destruct (raise_for_status r _) as [[[]|e] w1]; simpl in Hw; subst w1.
    + unfold json. destruct (json_loads _) as [v|e]; [done|].
      edestruct except_raises as (e' & -> & _). done.
    + edestruct except_raises as (e' & -> & _). done.
Qed.
End helper.

(** ** Running the handlers *)

Section handlers.
Context `{Platform}.

Lemma alloc_lookup (d : gmap string string) (w : World) :
  heap (alloc d w) !! length (heap w) = Some d.
Proof. unfold alloc. simpl. by rewrite lookup_app_r, Nat.sub_diag. Qed.

Lemma alloc_insert (d d' : gmap string string) (w : World) :
  <[length (heap w) := d']> (heap (alloc d w)) = heap w ++ [d'].
Proof.
  unfold alloc. simpl.
  rewrite insert_app_r_alt, Nat.sub_diag by done. done.
Qed.

Lemma setitem_alloc (k v : string) (d : gmap string string) (w : World) :
  dict_setitem (length (heap w)) k v (alloc d w)
  = (Ok (), alloc (<[k := v]> d) w).
Proof.
  unfold dict_setitem. rewrite alloc_lookup, alloc_insert. done.
Qed.

Lemma set_if_truthy_alloc (k : string) (o : option string)
    (d : gmap string string) (w : World) :
  set_if_truthy (length (heap w)) k o (alloc d w)
  = (Ok (), alloc (with_optional k o d) w).
Proof.
  unfold set_if_truthy, with_optional.
  destruct o as [v|]; [|done].
  destruct (truthy v); [apply setitem_alloc|done].
Qed.

(** A request on the dict just built leaves [after_handler]. *)
Lemma request_alloc (endpoint : string) (d : gmap string string) (w : World) :
  (make_api_request endpoint (length (heap w)) (alloc d w)).2
  = after_handler endpoint d w.
Proof.
  rewrite (make_api_request_world _ _ d) by apply alloc_lookup.
  unfold after_request, after_handler. by rewrite alloc_insert.
Qed.

Lemma location_search_run (query : string) (w : World) :
  all_space query = false →
  location_search query w
  = make_api_request "location" (length (heap w))
      (alloc (location_params query) w).
Proof.
  intros Hq. unfold location_search. rewrite blank_test, Hq. done.
Qed.

Lemma trip_search_run (origin_id dest_id : string) (date time : option string)
    (use_train use_bus use_metro use_ferry : bool) (w : World) :
  all_space origin_id = false →
  all_space dest_id = false →
  trip_search origin_id dest_id date time use_train use_bus use_metro
              use_ferry w
  = make_api_request "trip" (length (heap w))
      (alloc (trip_params origin_id dest_id date time use_train use_bus
                          use_metro use_ferry) w).
Proof.
  intros Ho Hd. unfold trip_search. rewrite !blank_test, Ho, Hd.
  unfold mbind, M_bind, dict_new. fold (alloc
    (<["destId":=strip dest_id]> {["originId" := strip origin_id]}) w).
  rewrite !set_if_truthy_alloc. rewrite !setitem_alloc. done.
Qed.

Lemma departure_board_run (station_id : string) (date time : option string)
    (w : World) :
  all_space station_id = false →
  departure_board station_id date time w
  = make_api_request "departureBoard" (length (heap w))
      (alloc (board_params station_id date time) w).
Proof.
  intros Hs. unfold departure_board. rewrite blank_test, Hs.
  unfold mbind, M_bind, dict_new.
  fold (alloc {["id" := strip station_id]} w).
  rewrite !set_if_truthy_alloc. done.
Qed.
End handlers.

Section results.
Context `{Platform}.

(** The helper's outcome, read off the platform's answer. *)
Lemma make_api_request_result (endpoint : string) (params : nat)
    (d : gmap string string) (w : World) :
  heap w !! params = Some d →
  let w' := after_request endpoint params d w in
  (make_api_request endpoint params w).1
  = match upstream (api_request endpoint d) with
    | GetRaises e => (make_api_request_except e w').1
    | GetReturns r =>
        match (raise_for_status r w').1 with
        | Raise e => (make_api_request_except e w').1
        | Ok _ =>
            match json_loads (text r) with
            | Ok v => Ok v
            | Raise e => (make_api_request_except e w').1
            end
        end
    end.
Proof.
  intros Hd w'.
  assert (params < length (heap w))%nat as Hlt by by eapply lookup_lt_Some.
  unfold make_api_request, mbind, M_bind, dict_setitem. rewrite Hd.
  unfold try_except, requests_get, mbind, M_bind, dict_items. cbn.
  rewrite list_lookup_insert_eq by done.
  unfold send. cbn. fold (api_request endpoint d).
  fold (after_request endpoint params d w). fold w'.
  destruct (upstream _) as [e|r]; [done|].
  pose proof (raise_for_status_world r w') as Hw.
  destruct (raise_for_status r w') as [[[]|e] w1]; simpl in Hw; subst w1;
    [|done].
  unfold json. simpl. by destruct (json_loads _).
Qed.

(** A call on something that is no dict stops at the injection. *)
Lemma make_api_request_dangling (endpoint : string) (params : nat) (w : World) :
  heap w !! params = None →
  make_api_request endpoint params w
  = (Raise (TypeError "object does not support item assignment"), w).
Proof.
  intros Hd. unfold make_api_request, mbind, M_bind, dict_setitem.
  by rewrite Hd.
Qed.

(** The helper never raises a [ValueError]. *)
Lemma make_api_request_not_invalid (endpoint : string) (params : nat)
    (w : World) (e : PyExc) :
  (make_api_request endpoint params w).1 = Raise e → ¬ InvalidArgument e.
Proof.
  unfold InvalidArgument.
  destruct (heap w !! params) as [d|] eqn:Hd.
  - rewrite (make_api_request_result _ _ d) by done. cbv zeta.
    set (w' := after_request endpoint params d w).
    assert (∀ e0, (make_api_request_except e0 w').1 = Raise e
                  → exc_class e ≠ ClsValueError) as Hex.
    { intros e0 He0. destruct (except_raises e0 w') as (e' & Heq & Hne).
      rewrite Heq in He0. simpl in He0. congruence. }
    destruct (upstream _) as [e0|r]; [apply Hex|].
    destruct (raise_for_status r w').1 as [[]|e0]; [|apply Hex].
    destruct (json_loads _) as [v|e0]; [discriminate|apply Hex].
  - rewrite make_api_request_dangling by done. simpl.
    intros [= <-]. discriminate.
Qed.

Lemma in_range_iff (lo hi : Z) (x : PyFloat) :
  in_range lo hi x
  ↔ float_le (float_of_int lo) x && float_le x (float_of_int hi) = true.
Proof.
  unfold in_range, float_of_int. split.
  - intros (q & -> & Hlo & Hhi). simpl.
    apply andb_true_iff. by rewrite !Qle_bool_iff.
  - intros Hb. apply andb_true_iff in Hb as [Hlo Hhi].
    destruct x as [q| | |]; simpl in *; try discriminate.
    exists q. by rewrite <- !Qle_bool_iff.
Qed.

Lemma clamp_min (cap n : Z) : (if cap <? n then cap else n) = Z.min n cap.
Proof. destruct (Z.ltb_spec cap n); lia. Qed.

Lemma nearby_stops_run (latitude longitude : PyFloat)
    (max_radius max_number : Z) (w : World) :
  in_range (-90) 90 latitude →
  in_range (-180) 180 longitude →
  1 ≤ max_radius →
  1 ≤ max_number →
  nearby_stops latitude longitude max_radius max_number w
  = make_api_request "stopsNearby" (length (heap w))
      (alloc (stops_params latitude longitude max_radius max_number) w).
Proof.
  intros Hlat Hlon Hr Hn. unfold nearby_stops.
  apply in_range_iff in Hlat, Hlon. rewrite Hlat, Hlon. simpl negb. cbv iota.
  destruct (Z.ltb_spec max_radius 1); [lia|].
  destruct (Z.ltb_spec max_number 1); [lia|].
  rewrite !clamp_min. done.
Qed.

Lemma nearby_stops_reject (latitude longitude : PyFloat)
    (max_radius max_number : Z) (w : World) :
  ¬ in_range (-90) 90 latitude ∨ ¬ in_range (-180) 180 longitude
  ∨ max_radius < 1 ∨ max_number < 1 →
  ∃ e, nearby_stops latitude longitude max_radius max_number w = (Raise e, w)
       ∧ InvalidArgument e.
Proof.
  rewrite !in_range_iff. unfold nearby_stops. intros Hbad.
  destruct (float_le (float_of_int (-90)) latitude
            && float_le latitude (float_of_int 90)); cbv [negb];
    [|rejected].
  destruct (float_le (float_of_int (-180)) longitude
            && float_le longitude (float_of_int 180)); cbv [negb];
    [|rejected].
  destruct (Z.ltb_spec max_radius 1); [rejected|].
  destruct (Z.ltb_spec max_number 1); [rejected|].
  destruct Hbad as [Hb|[Hb|[Hb|Hb]]]; try lia; by destruct Hb.
Qed.
End results.

(** ** The claims *)

Section claims.
Context `{Platform}.

Lemma request_exception_covers_timeout (e : PyExc) :
  isinstance e ClsRequestException = false → isinstance e ClsTimeout = false.
Proof. destruct e as [[] msg]; vm_compute; congruence. Qed.

Lemma except_timeout (e : PyExc) (w : World) :
  isinstance e ClsTimeout = true →
  make_api_request_except e w
  = (Raise (Exception "Request to Rejseplanen API timed out after 30 seconds"),
     w).
Proof. intros Ht. unfold make_api_request_except. by rewrite Ht. Qed.

Lemma except_request_exception (e : PyExc) (w : World) :
  isinstance e ClsTimeout = false →
  isinstance e ClsRequestException = true →
  make_api_request_except e w
  = (Raise (Exception ("Rejseplanen API request failed: " +:+ exc_str e)), w).
Proof. intros Ht Hr. unfold make_api_request_except. by rewrite Ht, Hr. Qed.

Lemma except_value_error (e : PyExc) (w : World) :
  isinstance e ClsRequestException = false →
  isinstance e ClsValueError = true →
  make_api_request_except e w
  = (Raise (Exception ("Failed to parse JSON response: " +:+ exc_str e)), w).
Proof.
  intros Hr Hv. unfold make_api_request_except.
  by rewrite (request_exception_covers_timeout e Hr), Hr, Hv.
Qed.

Lemma except_class (e e' : PyExc) (w : World) :
  (make_api_request_except e w).1 = Raise e' →
  exc_class e' = ClsException
  ∨ e' = e ∧ isinstance e ClsRequestException = false
            ∧ isinstance e ClsValueError = false.
Proof.
  unfold make_api_request_except.
  destruct (isinstance e ClsTimeout) eqn:Ht;
    [intros [= <-]; by left|].
  destruct (isinstance e ClsRequestException) eqn:Hr;
    [intros [= <-]; by left|].
  destruct (isinstance e ClsValueError) eqn:Hv;
    [intros [= <-]; by left|].
  intros [= <-]. by right.
Qed.

Lemma raise_for_status_error (r : Response) (w : World) :
  400 ≤ status_code r < 600 →
  raise_for_status r w
  = (Raise (HTTPError
              (str_int (status_code r)
               +:+ (if status_code r <? 500 then " Client Error: "
                    else " Server Error: ")
               +:+ reason r +:+ " for url: " +:+ resp_url r)), w).
Proof.
  intros Hs. unfold raise_for_status.
  destruct (Z.leb_spec 400 (status_code r)); [|lia].
  destruct (Z.ltb_spec (status_code r) 500); [done|].
  destruct (Z.leb_spec 500 (status_code r)); [|lia].
  destruct (Z.ltb_spec (status_code r) 600); [done|lia].
Qed.

Lemma raise_for_status_pass (r : Response) (w : World) :
  ¬ (400 ≤ status_code r < 600) →
  raise_for_status r w = (Ok (), w).
Proof.
  intros Hs. unfold raise_for_status.
  destruct (Z.leb_spec 400 (status_code r));
    destruct (Z.ltb_spec (status_code r) 500);
    destruct (Z.leb_spec 500 (status_code r));
    destruct (Z.ltb_spec (status_code r) 600); simpl; try done; lia.
Qed.

(** C1 (as amended): every failure that the request helper translates is
    re-raised as a plain [Exception], so the upstream failures share one
    kind and differ by message only.  A timeout gives the message naming
    the 30 seconds; any other failure of the [requests] hierarchy, and the
    [HTTPError] of a 4xx or 5xx status, give "Rejseplanen API request
    failed: " followed by the cause (status, reason and URL for an HTTP
    status, never the body); a [ValueError] outside that hierarchy raised
    while decoding the body gives "Failed to parse JSON response: "
    followed by the cause.  None of them is a [ValueError], the kind of a
    validation failure. *)
Theorem C1_upstream_failures_are_plain_exceptions
    (endpoint : string) (params : nat) (d : gmap string string) (w : World) :
  heap w !! params = Some d →
  let out := (make_api_request endpoint params w).1 in
  let answer := upstream (api_request endpoint d) in
  (∀ e, answer = GetRaises e → isinstance e ClsTimeout = true →
     out = Raise (Exception
                    "Request to Rejseplanen API timed out after 30 seconds"))
  ∧ (∀ e, answer = GetRaises e → isinstance e ClsTimeout = false →
       isinstance e ClsRequestException = true →
       out = Raise (Exception
                      ("Rejseplanen API request failed: " +:+ exc_str e)))
  ∧ (∀ r, answer = GetReturns r → 400 ≤ status_code r < 600 →
       out = Raise (Exception
                      ("Rejseplanen API request failed: "
                       +:+ (str_int (status_code r)
                            +:+ (if status_code r <? 500
                                 then " Client Error: "
                                 else " Server Error: ")
                            +:+ reason r +:+ " for url: " +:+ resp_url r))))
  ∧ (∀ r e, answer = GetReturns r → ¬ (400 ≤ status_code r < 600) →
       json_loads (text r) = Raise e →
       isinstance e ClsRequestException = false →
       isinstance e ClsValueError = true →
       out = Raise (Exception
                      ("Failed to parse JSON response: " +:+ exc_str e)))
  ∧ (∀ e, out = Raise e →
       ¬ InvalidArgument e
       ∧ (exc_class e = ClsException
          ∨ isinstance e ClsRequestException = false
            ∧ isinstance e ClsValueError = false)).
Proof.
  intros Hd out answer.
  pose proof (make_api_request_result endpoint params d w Hd) as Hout.
  cbv zeta in Hout. fold out answer in Hout.
  set (w' := after_request endpoint params d w) in Hout.
  split; [|split; [|split; [|split]]].
  - intros e Ha Ht. rewrite Hout, Ha. by rewrite except_timeout.
  - intros e Ha Ht Hr. rewrite Hout, Ha.
    by rewrite except_request_exception.
  - intros r Ha Hs. rewrite Hout, Ha.
    rewrite raise_for_status_error by done. cbn [fst].
    by rewrite except_request_exception.
  - intros r e Ha Hs Hj Hr Hv. rewrite Hout, Ha.
    rewrite raise_for_status_pass by done. cbn [fst]. rewrite Hj.
    by rewrite except_value_error.
  - intros e Hraise. split; [by eapply make_api_request_not_invalid|].
    rewrite Hout in Hraise.
    assert (∀ e0, (make_api_request_except e0 w').1 = Raise e →
              exc_class e = ClsException
              ∨ isinstance e ClsRequestException = false
                ∧ isinstance e ClsValueError = false) as Hex.
    { intros e0 He0. apply except_class in He0 as [?|(-> & ? & ?)]; auto. }
    destruct answer as [e0|r]; [by eapply Hex|].
    destruct (raise_for_status r w').1 as [[]|e0]; [|by eapply Hex].
    destruct (json_loads _) as [v|e0]; [discriminate|by eapply Hex].
Qed.

Lemma location_search_reject (query : string) (w : World) :
  all_space query = true →
  ∃ e, location_search query w = (Raise e, w) ∧ InvalidArgument e.
Proof.
  intros Hq. unfold location_search. rewrite blank_test, Hq. rejected.
Qed.

Lemma trip_search_reject (origin_id dest_id : string)
    (date time : option string) (use_train use_bus use_metro use_ferry : bool)
    (w : World) :
  all_space origin_id = true ∨ all_space dest_id = true →
  ∃ e, trip_search origin_id dest_id date time use_train use_bus use_metro
                   use_ferry w = (Raise e, w)
       ∧ InvalidArgument e.
Proof.
  intros Hblank. unfold trip_search. rewrite !blank_test.
  destruct (all_space origin_id); [rejected|].
  destruct Hblank as [Hb|Hb]; [discriminate|]. rewrite Hb. rejected.
Qed.

Lemma departure_board_reject (station_id : string)
    (date time : option string) (w : World) :
  all_space station_id = true →
  ∃ e, departure_board station_id date time w = (Raise e, w)
       ∧ InvalidArgument e.
Proof.
  intros Hs. unfold departure_board. rewrite blank_test, Hs. rejected.
Qed.

(** C2: a handler call whose arguments fail validation (a required string
    that is empty or all whitespace, a coordinate out of range, a limit
    below 1) raises [ValueError], the program's InvalidArgument, and leaves
    the world as it was: nothing is added to the outbound requests. *)
Theorem C2_invalid_arguments_send_nothing (w : World) :
  (∀ query,
     all_space query = true →
     ∃ e, location_search query w = (Raise e, w) ∧ InvalidArgument e)
  ∧ (∀ origin_id dest_id date time use_train use_bus use_metro use_ferry,
       all_space origin_id = true ∨ all_space dest_id = true →
       ∃ e, trip_search origin_id dest_id date time use_train use_bus
                        use_metro use_ferry w = (Raise e, w)
            ∧ InvalidArgument e)
  ∧ (∀ station_id date time,
       all_space station_id = true →
       ∃ e, departure_board station_id date time w = (Raise e, w)
            ∧ InvalidArgument e)
  ∧ (∀ latitude longitude max_radius max_number,
       ¬ in_range (-90) 90 latitude ∨ ¬ in_range (-180) 180 longitude
       ∨ max_radius < 1 ∨ max_number < 1 →
       ∃ e, nearby_stops latitude longitude max_radius max_number w
            = (Raise e, w)
            ∧ InvalidArgument e).
Proof.
  split; [|split; [|split]]; intros.
  - by apply location_search_reject.
  - by apply trip_search_reject.
  - by apply departure_board_reject.
  - by apply nearby_stops_reject.
Qed.

(** C3: with latitude in [-90, 90], longitude in [-180, 180] and both
    limits at least 1, [nearby_stops] passes validation and issues one GET
    to [stopsNearby] whose query is, next to the helper's [format], exactly
    coordX = str(longitude), coordY = str(latitude),
    maxRadius = str(min(max_radius, 10000)) and
    maxNumber = str(min(max_number, 50)); a limit above its cap is sent as
    the cap. *)
Theorem C3_nearby_stops_parameters (latitude longitude : PyFloat)
    (max_radius max_number : Z) (w : World) :
  in_range (-90) 90 latitude →
  in_range (-180) 180 longitude →
  1 ≤ max_radius →
  1 ≤ max_number →
  let run := nearby_stops latitude longitude max_radius max_number w in
  let built : gmap string string :=
    <[ "maxNumber" := str_int (Z.min max_number 50) ]>
      (<[ "maxRadius" := str_int (Z.min max_radius 10000) ]>
        (<[ "coordY" := str_float latitude ]>
          {[ "coordX" := str_float longitude ]})) in
  (∀ e, run.1 = Raise e → ¬ InvalidArgument e)
  ∧ ∃ req,
      sent run.2 = sent w ++ [req]
      ∧ req_url req = REJSEPLANEN_API_BASE +:+ "/stopsNearby"
      ∧ req_params req = <[ "format" := "json" ]> built
      ∧ delete "format" (req_params req) = built
      ∧ (10000 < max_radius → req_params req !! "maxRadius" = Some "10000")
      ∧ (50 < max_number → req_params req !! "maxNumber" = Some "50").
Proof.
  intros Hlat Hlon Hr Hn run built. subst run.
  rewrite nearby_stops_run by done. fold built.
  change (stops_params latitude longitude max_radius max_number) with built.
  split; [intros e; apply make_api_request_not_invalid|].
  rewrite request_alloc. eexists. split; [reflexivity|].
  split; [reflexivity|]. split; [reflexivity|]. simpl.
  split; [|split].
  - rewrite delete_insert_id; [done|]. by subst built; simplify_map_eq.
  - intros Hbig. subst built. simplify_map_eq.
    by replace (Z.min max_radius 10000) with 10000 by lia.
  - intros Hbig. subst built. simplify_map_eq.
    by replace (Z.min max_number 50) with 50 by lia.
Qed.

(** C4: [nearby_stops] fails with [ValueError], the program's
    InvalidArgument, exactly when the latitude is outside [-90, 90], or the
    longitude is outside [-180, 180], or [max_radius] is below 1, or
    [max_number] is below 1; the bounds themselves are accepted. *)
Theorem C4_nearby_stops_rejects_exactly (latitude longitude : PyFloat)
    (max_radius max_number : Z) (w : World) :
  ((∃ e, (nearby_stops latitude longitude max_radius max_number w).1 = Raise e
         ∧ InvalidArgument e)
   ↔ ¬ in_range (-90) 90 latitude ∨ ¬ in_range (-180) 180 longitude
     ∨ max_radius < 1 ∨ max_number < 1)
  ∧ (∀ la lo,
       la ∈ [float_of_int (-90); float_of_int 90] →
       lo ∈ [float_of_int (-180); float_of_int 180] →
       ∀ e, (nearby_stops la lo 1 1 w).1 = Raise e → ¬ InvalidArgument e).
Proof.
  assert (∀ la lo r n,
            in_range (-90) 90 la → in_range (-180) 180 lo → 1 ≤ r → 1 ≤ n →
            ∀ e, (nearby_stops la lo r n w).1 = Raise e → ¬ InvalidArgument e)
    as Haccept.
  { intros la lo r n Hla Hlo Hr Hn e. rewrite nearby_stops_run by done.
    apply make_api_request_not_invalid. }
  split.
  - split.
    + intros (e & Hraise & Hinv).
      destruct (float_le (float_of_int (-90)) latitude
                && float_le latitude (float_of_int 90)) eqn:Hlat;
        [|left; rewrite in_range_iff, Hlat; discriminate].
      destruct (float_le (float_of_int (-180)) longitude
                && float_le longitude (float_of_int 180)) eqn:Hlon;
        [|right; left; rewrite in_range_iff, Hlon; discriminate].
      destruct (Z.lt_ge_cases max_radius 1); [tauto|].
      destruct (Z.lt_ge_cases max_number 1); [tauto|].
      apply in_range_iff in Hlat, Hlon.
      by destruct (Haccept latitude longitude max_radius max_number
                     Hlat Hlon ltac:(lia) ltac:(lia) e Hraise).
    + intros Hbad.
      destruct (nearby_stops_reject latitude longitude max_radius max_number
                  w Hbad) as (e & Heq & Hinv).
      exists e. by rewrite Heq.
  - intros la lo Hla Hlo. apply Haccept; [| |lia|lia].
    + apply in_range_iff.
      apply list_elem_of_In in Hla. destruct Hla as [<-|[<-|[]]]; done.
    + apply in_range_iff.
      apply list_elem_of_In in Hlo. destruct Hlo as [<-|[<-|[]]]; done.
Qed.

(** C5: with both ids non-blank and neither date nor time given,
    [trip_search] issues one GET to [trip] whose query is, next to the
    helper's [format], exactly originId and destId and the four flags useTog,
    useBus, useMetro, useFerry, each "1" for true and "0" for false; it has
    no date and no time key.  The originId and destId sent are the ids
    trimmed: what is left of each id once its blank prefix and blank suffix
    are removed, non-empty and with whitespace at neither end. *)
Theorem C5_trip_search_parameters (origin_id dest_id : string)
    (use_train use_bus use_metro use_ferry : bool) (w : World) :
  all_space origin_id = false →
  all_space dest_id = false →
  let run := trip_search origin_id dest_id None None use_train use_bus
                         use_metro use_ferry w in
  let built : gmap string string :=
    <[ "useFerry" := if use_ferry then "1" else "0" ]>
      (<[ "useMetro" := if use_metro then "1" else "0" ]>
        (<[ "useBus" := if use_bus then "1" else "0" ]>
          (<[ "useTog" := if use_train then "1" else "0" ]>
            (<[ "destId" := strip dest_id ]>
              {[ "originId" := strip origin_id ]})))) in
  ∃ req,
    sent run.2 = sent w ++ [req]
    ∧ req_url req = REJSEPLANEN_API_BASE +:+ "/trip"
    ∧ req_params req = <[ "format" := "json" ]> built
    ∧ delete "format" (req_params req) = built
    ∧ req_params req !! "date" = None
    ∧ req_params req !! "time" = None
    ∧ ∃ origin dest,
        req_params req !! "originId" = Some origin
        ∧ req_params req !! "destId" = Some dest
        ∧ trimmed_of origin_id origin ∧ origin ≠ ""
        ∧ trimmed_of dest_id dest ∧ dest ≠ "".
Proof.
  intros Ho Hd run built. subst run.
  rewrite trip_search_run by done.
  change (trip_params origin_id dest_id None None use_train use_bus
                      use_metro use_ferry) with built.
  rewrite request_alloc. eexists. split; [reflexivity|].
  split; [reflexivity|]. split; [reflexivity|]. simpl.
  split; [|split; [|split]].
  - rewrite delete_insert_id; [done|]. by subst built; simplify_map_eq.
  - by subst built; simplify_map_eq.
  - by subst built; simplify_map_eq.
  - exists (strip origin_id), (strip dest_id).
    split; [by subst built; simplify_map_eq|].
    split; [by subst built; simplify_map_eq|].
    split; [apply strip_trimmed|].
    split; [intros Hnil; apply strip_nil_iff in Hnil; congruence|].
    split; [apply strip_trimmed|].
    intros Hnil. apply strip_nil_iff in Hnil. congruence.
Qed.

(** C6: [location_search] fails with [ValueError], the program's
    InvalidArgument, exactly when the stripped query is empty, that is when
    the query is empty or all whitespace; any other query issues one GET to
    [location] whose only parameter next to the helper's [format] is input,
    bound to the stripped query, and stripping only removes a blank prefix
    and a blank suffix. *)
Theorem C6_location_search (query : string) (w : World) :
  ((∃ e, (location_search query w).1 = Raise e ∧ InvalidArgument e)
   ↔ strip query = "")
  ∧ (strip query = "" ↔ all_space query = true)
  ∧ (strip query ≠ "" →
     ∃ req,
       sent (location_search query w).2 = sent w ++ [req]
       ∧ req_url req = REJSEPLANEN_API_BASE +:+ "/location"
       ∧ req_params req = <[ "format" := "json" ]> {[ "input" := strip query ]}
       ∧ delete "format" (req_params req) = {[ "input" := strip query ]})
  ∧ (∃ a b, query = a +:+ strip query +:+ b
            ∧ all_space a = true ∧ all_space b = true).
Proof.
  split; [|split; [apply strip_nil_iff|split; [|apply strip_split]]].
  - rewrite strip_nil_iff. split.
    + intros (e & Hraise & Hinv).
      destruct (all_space query) eqn:Hq; [done|].
      rewrite location_search_run in Hraise by done.
      by apply make_api_request_not_invalid in Hraise.
    + intros Hq.
      destruct (location_search_reject query w Hq) as (e & Heq & Hinv).
      exists e. by rewrite Heq.
  - intros Hne.
    assert (all_space query = false) as Hq.
    { destruct (all_space query) eqn:Hq; [|done].
      by apply strip_nil_iff in Hq. }
    rewrite location_search_run by done. rewrite request_alloc.
    eexists. split; [reflexivity|]. split; [reflexivity|].
    split; [reflexivity|]. simpl.
    rewrite delete_insert_id; [done|]. by simplify_map_eq.
Qed.

(** C7: a handler call that succeeds has issued exactly one outbound GET,
    and the query of that GET binds [format] to [json]; the helper does so
    for whatever dict it is given, replacing a [format] the caller had put
    there, and it issues that one GET and no second one whether the call
    then succeeds or fails. *)
Theorem C7_one_request_with_format_json (w : World) :
  (∀ endpoint params d,
     heap w !! params = Some d →
     ∃ req, sent (make_api_request endpoint params w).2 = sent w ++ [req]
            ∧ req_params req = <[ "format" := "json" ]> d
            ∧ req_params req !! "format" = Some "json")
  ∧ (∀ query v,
       (location_search query w).1 = Ok v →
       ∃ req, sent (location_search query w).2 = sent w ++ [req]
              ∧ req_params req !! "format" = Some "json")
  ∧ (∀ origin_id dest_id date time use_train use_bus use_metro use_ferry v,
       (trip_search origin_id dest_id date time use_train use_bus use_metro
                    use_ferry w).1 = Ok v →
       ∃ req, sent (trip_search origin_id dest_id date time use_train use_bus
                                use_metro use_ferry w).2 = sent w ++ [req]
              ∧ req_params req !! "format" = Some "json")
  ∧ (∀ station_id date time v,
       (departure_board station_id date time w).1 = Ok v →
       ∃ req, sent (departure_board station_id date time w).2
              = sent w ++ [req]
              ∧ req_params req !! "format" = Some "json")
  ∧ (∀ latitude longitude max_radius max_number v,
       (nearby_stops latitude longitude max_radius max_number w).1 = Ok v →
       ∃ req, sent (nearby_stops latitude longitude max_radius max_number w).2
              = sent w ++ [req]
              ∧ req_params req !! "format" = Some "json").
Proof.
  split; [|split; [|split; [|split]]].
  - intros endpoint params d Hd.
    rewrite (make_api_request_world _ _ d) by done.
    eexists. split; [reflexivity|]. split; [reflexivity|].
    simpl. apply lookup_insert_eq.
  - intros query v Hok.
    destruct (all_space query) eqn:Hq.
    { destruct (location_search_reject query w Hq) as (e & Heq & _).
      by rewrite Heq in Hok. }
    rewrite location_search_run, request_alloc by done.
    eexists. split; [reflexivity|]. simpl. apply lookup_insert_eq.
  - intros origin_id dest_id date time use_train use_bus use_metro use_ferry
      v Hok.
    destruct (all_space origin_id) eqn:Ho;
      [|destruct (all_space dest_id) eqn:Hd].
    1,2: edestruct (trip_search_reject origin_id dest_id) as (e & Heq & _);
      [eauto|by rewrite Heq in Hok].
    rewrite trip_search_run, request_alloc by done.
    eexists. split; [reflexivity|]. simpl. apply lookup_insert_eq.
  - intros station_id date time v Hok.
    destruct (all_space station_id) eqn:Hs.
    { edestruct (departure_board_reject station_id) as (e & Heq & _);
        [eauto|by rewrite Heq in Hok]. }
    rewrite departure_board_run, request_alloc by done.
    eexists. split; [reflexivity|]. simpl. apply lookup_insert_eq.
  - intros latitude longitude max_radius max_number v Hok.
    destruct (float_le (float_of_int (-90)) latitude
              && float_le latitude (float_of_int 90)) eqn:Hlat;
      [|edestruct (nearby_stops_reject latitude longitude) as (e & Heq & _);
        [left; rewrite in_range_iff, Hlat; discriminate
        |by rewrite Heq in Hok]].
    destruct (float_le (float_of_int (-180)) longitude
              && float_le longitude (float_of_int 180)) eqn:Hlon;
      [|edestruct (nearby_stops_reject latitude longitude) as (e & Heq & _);
        [right; left; rewrite in_range_iff, Hlon; discriminate
        |by rewrite Heq in Hok]].
    destruct (Z.lt_ge_cases max_radius 1);
      [edestruct (nearby_stops_reject latitude longitude) as (e & Heq & _);
        [right; right; left; eassumption|by rewrite Heq in Hok]|].
    destruct (Z.lt_ge_cases max_number 1);
      [edestruct (nearby_stops_reject latitude longitude) as (e & Heq & _);
        [right; right; right; eassumption|by rewrite Heq in Hok]|].
    apply in_range_iff in Hlat, Hlon.
    rewrite nearby_stops_run, request_alloc by (done || lia).
    eexists. split; [reflexivity|]. simpl. apply lookup_insert_eq.
Qed.

Lemma with_optional_lookup_ne (k k' : string) (o : option string)
    (d : gmap string string) :
  k ≠ k' → with_optional k o d !! k' = d !! k'.
Proof.
  intros Hne. unfold with_optional. destruct o as [v|]; [|done].
  destruct (truthy v); [by apply lookup_insert_ne|done].
Qed.

Lemma with_optional_lookup_eq (k : string) (o : option string)
    (d : gmap string string) :
  with_optional k o d !! k = if truthy_opt o then o else d !! k.
Proof.
  unfold with_optional, truthy_opt. destruct o as [v|]; [|done].
  destruct (truthy v); [by apply lookup_insert_eq|done].
Qed.

(** C8: [get_server_info] reaches neither the network nor the heap and,
    the interpreter's version string having a first word, it returns a
    record; two calls in worlds with the same [ENVIRONMENT] setting and the
    same interpreter return the same record, and the record lists exactly
    the five tool names. *)
Theorem C8_get_server_info (w1 w2 : World) :
  split (sys_version w1) ≠ [] →
  sys_version w2 = sys_version w1 →
  os_environ w2 !! "ENVIRONMENT" = os_environ w1 !! "ENVIRONMENT" →
  ∃ info,
    get_server_info w1 = (Ok info, w1)
    ∧ get_server_info w2 = (Ok info, w2)
    ∧ environment info = default "development" (os_environ w1 !! "ENVIRONMENT")
    ∧ tools info = ["location_search"; "trip_search"; "departure_board";
                    "nearby_stops"; "get_server_info"].
Proof.
  intros Hver Hsame Henv.
  unfold get_server_info, mbind, M_bind, os_environ_get, sys_version_get,
    list_getitem, mret, M_ret.
  rewrite Hsame, Henv.
  destruct (split (sys_version w1)) as [|tok rest]; [done|].
  simpl. eexists. repeat split.
Qed.

(** C9: [make_api_request] writes into the dict it was given, not into a
    copy: whatever the outcome of the request, afterwards the caller's dict
    holds [format] bound to [json], its other keys are as before, no dict
    was created and no other dict has changed; the query that was sent is
    the contents of that very dict. *)
Theorem C9_helper_mutates_the_callers_dict (endpoint : string) (params : nat)
    (d : gmap string string) (w : World) :
  heap w !! params = Some d →
  let w' := (make_api_request endpoint params w).2 in
  heap w' !! params = Some (<[ "format" := "json" ]> d)
  ∧ (∃ d', heap w' !! params = Some d'
           ∧ d' !! "format" = Some "json"
           ∧ (∀ k, k ≠ "format" → d' !! k = d !! k)
           ∧ ∃ req, sent w' = sent w ++ [req] ∧ req_params req = d')
  ∧ length (heap w') = length (heap w)
  ∧ (∀ other, other ≠ params → heap w' !! other = heap w !! other).
Proof.
  intros Hd w'. subst w'.
  assert (params < length (heap w))%nat as Hlt by by eapply lookup_lt_Some.
  rewrite (make_api_request_world _ _ d) by done.
  unfold after_request. simpl.
  split; [by apply list_lookup_insert_eq|].
  split; [|split].
  - eexists. split; [by apply list_lookup_insert_eq|].
    split; [apply lookup_insert_eq|].
    split; [intros k Hk; by apply lookup_insert_ne|].
    eexists. split; reflexivity.
  - apply length_insert.
  - intros other Hne. by apply list_lookup_insert_ne.
Qed.

(** C10: [trip_search] and [departure_board] check neither date nor time:
    with the ids non-blank, a non-empty date or time string, whatever it
    holds, is the value of the [date] or [time] parameter unchanged, and an
    empty string is left out like an absent argument. *)
Theorem C10_date_and_time_pass_unchecked (date time : option string)
    (w : World) :
  (∀ origin_id dest_id use_train use_bus use_metro use_ferry,
     all_space origin_id = false →
     all_space dest_id = false →
     ∃ req,
       sent (trip_search origin_id dest_id date time use_train use_bus
                         use_metro use_ferry w).2 = sent w ++ [req]
       ∧ req_params req !! "date"
         = match date with Some "" => None | _ => date end
       ∧ req_params req !! "time"
         = match time with Some "" => None | _ => time end)
  ∧ (∀ station_id,
       all_space station_id = false →
       ∃ req,
         sent (departure_board station_id date time w).2 = sent w ++ [req]
         ∧ req_params req !! "date"
           = match date with Some "" => None | _ => date end
         ∧ req_params req !! "time"
           = match time with Some "" => None | _ => time end)
  ∧ (∀ origin_id dest_id use_train use_bus use_metro use_ferry,
       trip_search origin_id dest_id (Some "") time use_train use_bus
                   use_metro use_ferry w
       = trip_search origin_id dest_id None time use_train use_bus
                     use_metro use_ferry w
       ∧ trip_search origin_id dest_id date (Some "") use_train use_bus
                     use_metro use_ferry w
         = trip_search origin_id dest_id date None use_train use_bus
                       use_metro use_ferry w)
  ∧ (∀ station_id,
       departure_board station_id (Some "") time w
       = departure_board station_id None time w
       ∧ departure_board station_id date (Some "") w
         = departure_board station_id date None w).
Proof.
  assert (∀ o : option string,
            (if truthy_opt o then o else None)
            = match o with Some "" => None | _ => o end) as Hopt.
  { intros [[|c s]|]; reflexivity. }
  split; [|split; [|split]].
  - intros origin_id dest_id use_train use_bus use_metro use_ferry Ho Hd.
    rewrite trip_search_run, request_alloc by done.
    eexists. split; [reflexivity|]. simpl. unfold trip_params.
    rewrite <- !Hopt. split.
    + rewrite !lookup_insert_ne by done.
      rewrite with_optional_lookup_ne by done.
      rewrite with_optional_lookup_eq. by simplify_map_eq.
    + rewrite !lookup_insert_ne by done.
      rewrite with_optional_lookup_eq.
      rewrite with_optional_lookup_ne by done. by simplify_map_eq.
  - intros station_id Hs.
    rewrite departure_board_run, request_alloc by done.
    eexists. split; [reflexivity|]. simpl. unfold board_params.
    rewrite <- !Hopt. split.
    + rewrite !lookup_insert_ne by done.
      rewrite with_optional_lookup_ne by done.
      rewrite with_optional_lookup_eq. by simplify_map_eq.
    + rewrite !lookup_insert_ne by done.
      rewrite with_optional_lookup_eq.
      rewrite with_optional_lookup_ne by done. by simplify_map_eq.
  - intros. split; reflexivity.
  - intros. split; reflexivity.
Qed.
End claims.

(** ** Concrete runs *)

(** C1 at a read timeout on the caller's dict. *)
Lemma C1_witness :
  (make_api_request (H := platform_of (GetRaises read_timed_out))
                    "location" 0%nat world_caller).1
  = Raise (Exception "Request to Rejseplanen API timed out after 30 seconds").
Proof.
  apply (proj1 (C1_upstream_failures_are_plain_exceptions
                  (H := platform_of (GetRaises read_timed_out))
                  "location" 0%nat {[ "format" := "xml" ]} world_caller
                  eq_refl) read_timed_out); reflexivity.
Defined.

(** C1 as the specification words it fails: a 500 response, a refused
    connection, a timeout and an undecodable body all end in the one class
    [Exception], the first two under the same message prefix; the error of a
    500 response is the same whatever the body; and a 304 response, which is
    not 2xx, does not fail. *)
Lemma C1_counterexample :
  let run u := (make_api_request (H := platform_of u)
                                 "location" 0%nat world_caller).1 in
  run (GetReturns (response_500 "<html>Bad Gateway</html>"))
  = Raise (Exception
             ("Rejseplanen API request failed: 500 Server Error: "
              +:+ "Internal Server Error for url: "
              +:+ "https://xmlopen.rejseplanen.dk/bin/rest.exe/location"))
  ∧ run (GetReturns (response_500 "{}"))
    = run (GetReturns (response_500 "<html>Bad Gateway</html>"))
  ∧ run (GetRaises connection_refused)
    = Raise (Exception "Rejseplanen API request failed: Connection refused")
  ∧ run (GetRaises read_timed_out)
    = Raise (Exception "Request to Rejseplanen API timed out after 30 seconds")
  ∧ run (GetReturns response_garbled)
    = Raise (Exception
               ("Rejseplanen API request failed: "
                +:+ "Expecting value: line 1 column 1 (char 0)"))
  ∧ run (GetReturns response_304) = Ok JNull.
Proof. vm_compute. repeat split. Qed.

(** C2 at a query of three spaces. *)
Lemma C2_witness :
  ∃ e, location_search (H := platform_ok) "   " world0 = (Raise e, world0)
       ∧ InvalidArgument e.
Proof.
  apply (proj1 (C2_invalid_arguments_send_nothing (H := platform_ok) world0)).
  reflexivity.
Defined.

(** C3 at Copenhagen with a radius of 50 km. *)
Lemma C3_witness :
  ∃ req,
    sent (nearby_stops (H := platform_ok) (Fin (111 # 2)) (Fin (25 # 2))
                       50000 10 world0).2 = [req]
    ∧ req_params req !! "maxRadius" = Some "10000".
Proof.
  assert (in_range (-90) 90 (Fin (111 # 2))) as Hlat.
  { exists (111 # 2). unfold Qle. simpl. repeat split; lia. }
  assert (in_range (-180) 180 (Fin (25 # 2))) as Hlon.
  { exists (25 # 2). unfold Qle. simpl. repeat split; lia. }
  destruct (C3_nearby_stops_parameters (H := platform_ok)
              (Fin (111 # 2)) (Fin (25 # 2)) 50000 10 world0
              Hlat Hlon ltac:(lia) ltac:(lia))
    as (_ & req & Hsent & _ & _ & _ & Hcap & _).
  exists req. split; [exact Hsent|]. apply Hcap. lia.
Defined.

(** C4 at a latitude of 95 degrees. *)
Lemma C4_witness :
  ∃ e, (nearby_stops (H := platform_ok) (float_of_int 95) (Fin (25 # 2))
                     1000 10 world0).1 = Raise e
       ∧ InvalidArgument e.
Proof.
  apply (proj1 (C4_nearby_stops_rejects_exactly (H := platform_ok)
                  (float_of_int 95) (Fin (25 # 2)) 1000 10 world0)).
  left. intros (q & Heq & _ & Hhi). injection Heq as <-.
  unfold Qle in Hhi. simpl in Hhi. lia.
Defined.

(** C5 at the two station ids of the handler's own example, padded, without
    buses and ferries. *)
Lemma C5_witness :
  ∃ req,
    sent (trip_search (H := platform_ok) "  008600626 " "008600053   " None
                      None true false true false world0).2 = [req]
    ∧ req_params req
      = <[ "format" := "json" ]>
          (<[ "useFerry" := "0" ]>
            (<[ "useMetro" := "1" ]>
              (<[ "useBus" := "0" ]>
                (<[ "useTog" := "1" ]>
                  (<[ "destId" := "008600053" ]>
                    {[ "originId" := "008600626" ]})))))
    ∧ req_params req !! "date" = None
    ∧ req_params req !! "time" = None.
Proof.
  destruct (C5_trip_search_parameters (H := platform_ok)
              "  008600626 " "008600053   " true false true false world0
              eq_refl eq_refl)
    as (req & Hsent & _ & Hparams & _ & Hdate & Htime & _).
  exists req. split; [exact Hsent|]. split; [exact Hparams|].
  split; [exact Hdate|exact Htime].
Defined.

(** C6 at a padded station name. *)
Lemma C6_witness :
  ∃ req,
    sent (location_search (H := platform_ok) "  Aarhus H " world0).2 = [req]
    ∧ req_params req = <[ "format" := "json" ]> {[ "input" := "Aarhus H" ]}.
Proof.
  destruct (proj1 (proj2 (proj2 (C6_location_search (H := platform_ok)
                                   "  Aarhus H " world0))))
    as (req & Hsent & _ & Hparams & _).
  - discriminate.
  - exists req. split; [exact Hsent|exact Hparams].
Defined.

(** C7 at a successful search. *)
Lemma C7_witness :
  ∃ req,
    sent (location_search (H := platform_ok) "Aarhus H" world0).2 = [req]
    ∧ req_params req !! "format" = Some "json".
Proof.
  apply (proj1 (proj2 (C7_one_request_with_format_json (H := platform_ok)
                         world0)) "Aarhus H" (JObject [])).
  reflexivity.
Defined.

(** C8 at two worlds that differ in heap only. *)
Lemma C8_witness :
  ∃ info,
    get_server_info world0 = (Ok info, world0)
    ∧ get_server_info world_caller = (Ok info, world_caller)
    ∧ environment info = "development".
Proof.
  destruct (C8_get_server_info world0 world_caller)
    as (info & H0 & H1 & Henv & _).
  - discriminate.
  - reflexivity.
  - reflexivity.
  - exists info. split; [exact H0|]. split; [exact H1|exact Henv].
Defined.

(** C9 at a caller whose dict asked for XML, on a refused connection. *)
Lemma C9_witness :
  heap (make_api_request (H := platform_of (GetRaises connection_refused))
                         "location" 0%nat world_caller).2 !! 0%nat
  = Some (<[ "format" := "json" ]> {[ "format" := "xml" ]}).
Proof.
  apply (proj1 (C9_helper_mutates_the_callers_dict
                  (H := platform_of (GetRaises connection_refused))
                  "location" 0%nat {[ "format" := "xml" ]} world_caller
                  eq_refl)).
Defined.

(** C10 at a date of one space and a time that is none. *)
Lemma C10_witness :
  ∃ req,
    sent (trip_search (H := platform_ok) "A" "B" (Some " ") (Some "25:99")
                      true true true true world0).2 = [req]
    ∧ req_params req !! "date" = Some " "
    ∧ req_params req !! "time" = Some "25:99".
Proof.
  apply (proj1 (C10_date_and_time_pass_unchecked (H := platform_ok)
                  (Some " ") (Some "25:99") world0)
           "A" "B" true true true true); reflexivity.
Defined.

(** ** More facts about strings *)

Lemma all_space_app (a b : string) :
  all_space (a +:+ b) = all_space a && all_space b.
Proof.
  induction a as [|c a IH]; [done|].
  rewrite append_cons. simpl. by rewrite IH, andb_assoc.
Qed.

Lemma all_space_rstrip (s : string) : all_space (rstrip s) = all_space s.
Proof.
  destruct (rstrip_split s) as (b & Hs & Hb).
  rewrite Hs at 2. by rewrite all_space_app, Hb, andb_true_r.
Qed.

Lemma all_space_strip (s : string) : all_space (strip s) = all_space s.
Proof. unfold strip. by rewrite all_space_rstrip, all_space_lstrip. Qed.

Lemma lstrip_idemp (s : string) : lstrip (lstrip s) = lstrip s.
Proof.
  induction s as [|c r IH]; [done|]. simpl.
  destruct (isspace c) eqn:Hc; [done|]. simpl. by rewrite Hc.
Qed.

Lemma rstrip_idemp (s : string) : rstrip (rstrip s) = rstrip s.
Proof.
  induction s as [|c r IH]; [done|]. simpl.
  destruct (rstrip r) as [|c' r'] eqn:Hr.
  - destruct (isspace c) eqn:Hc; [done|]. simpl. by rewrite Hc.
  - simpl. simpl in IH. by rewrite IH.
Qed.

Lemma lstrip_length (s : string) :
  (String.length (lstrip s) ≤ String.length s)%nat.
Proof.
  induction s as [|c r IH]; [done|]. simpl.
  destruct (isspace c); simpl; lia.
Qed.

(** Stripping the right end keeps a clean left end clean. *)
Lemma lstrip_rstrip_fixed (s : string) :
  lstrip s = s → lstrip (rstrip s) = rstrip s.
Proof.
  destruct s as [|c r]; [done|]. simpl.
  destruct (isspace c) eqn:Hc.
  - intros Heq. pose proof (lstrip_length r) as Hlen.
    rewrite Heq in Hlen. simpl in Hlen. lia.
  - intros _. destruct (rstrip r); simpl; by rewrite Hc.
Qed.

Lemma strip_idemp (s : string) : strip (strip s) = strip s.
Proof.
  unfold strip.
  rewrite (lstrip_rstrip_fixed (lstrip s)) by apply lstrip_idemp.
  apply rstrip_idemp.
Qed.

Lemma no_space_app (a b : string) :
  no_space (a +:+ b) = no_space a && no_space b.
Proof.
  induction a as [|c a IH]; [done|].
  rewrite append_cons. simpl. by rewrite IH, andb_assoc.
Qed.

(** The words of [s.split()] are non-empty and free of whitespace. *)
Lemma split_go_words (s cur : string) :
  no_space cur = true →
  Forall (λ word, word ≠ "" ∧ no_space word = true) (split_go cur s).
Proof.
  revert cur. induction s as [|c r IH]; intros cur Hcur; simpl.
  - destruct cur; [constructor|]. by repeat constructor.
  - destruct (isspace c) eqn:Hc.
    + destruct cur; [by apply IH|].
      constructor; [done|by apply IH].
    + apply IH. rewrite no_space_app, Hcur. simpl. by rewrite Hc.
Qed.

Lemma split_words (s : string) :
  Forall (λ word, word ≠ "" ∧ no_space word = true) (split s).
Proof. by apply split_go_words. Qed.

(** ** Further properties of the helper and the handlers *)

Section extras.
Context `{Platform}.

Lemma except_propagates (e : PyExc) (w : World) :
  isinstance e ClsRequestException = false →
  isinstance e ClsValueError = false →
  make_api_request_except e w = (Raise e, w).
Proof.
  intros Hr Hv. unfold make_api_request_except.
  by rewrite (request_exception_covers_timeout e Hr), Hr, Hv.
Qed.

Lemma make_api_request_ok_iff (endpoint : string) (params : nat)
    (d : gmap string string) (w : World) (v : JSON) :
  heap w !! params = Some d →
  (make_api_request endpoint params w).1 = Ok v
  ↔ delivers (api_request endpoint d) v.
Proof.
  intros Hd. rewrite (make_api_request_result _ _ d) by done. cbv zeta.
  set (w' := after_request endpoint params d w). unfold delivers.
  assert (∀ e, (make_api_request_except e w').1 ≠ Ok v) as Hex.
  { intros e. destruct (except_raises e w') as (e' & -> & _). done. }
  destruct (upstream _) as [e|r].
  - split; [by intros ?%Hex|]. by intros (r & ? & _).
  - destruct (decide (400 ≤ status_code r < 600)) as [Hs|Hs].
    + rewrite raise_for_status_error by done. cbn [fst].
      split; [by intros ?%Hex|].
      intros (r' & [= <-] & Hs' & _). done.
    + rewrite raise_for_status_pass by done. cbn [fst].
      destruct (json_loads (text r)) as [v'|e] eqn:Hj.
      * split.
        -- intros [= <-]. by exists r.
        -- intros (r' & [= <-] & _ & Hj'). congruence.
      * split; [by intros ?%Hex|].
        intros (r' & [= <-] & _ & Hj'). congruence.
Qed.

(** X1: the helper returns a value exactly when the response passes
    [raise_for_status] (its status is not 4xx or 5xx) and its body decodes;
    the value is the decoded body, as it is. *)
Theorem X1_helper_returns_the_decoded_body (endpoint : string) (params : nat)
    (d : gmap string string) (w : World) (v : JSON) :
  heap w !! params = Some d →
  (make_api_request endpoint params w).1 = Ok v
  ↔ ∃ r, upstream (api_request endpoint d) = GetReturns r
         ∧ ¬ (400 ≤ status_code r < 600)
         ∧ json_loads (text r) = Ok v.
Proof. apply make_api_request_ok_iff. Qed.

(** X2: an exception that belongs neither to the [requests] hierarchy nor to
    [ValueError], raised by the GET or while decoding the body, leaves the
    helper as it is: none of the three clauses rewrites it. *)
Theorem X2_unrelated_exceptions_propagate (endpoint : string) (params : nat)
    (d : gmap string string) (w : World) (e : PyExc) :
  heap w !! params = Some d →
  isinstance e ClsRequestException = false →
  isinstance e ClsValueError = false →
  upstream (api_request endpoint d) = GetRaises e
  ∨ (∃ r, upstream (api_request endpoint d) = GetReturns r
          ∧ ¬ (400 ≤ status_code r < 600)
          ∧ json_loads (text r) = Raise e) →
  (make_api_request endpoint params w).1 = Raise e.
Proof.
  intros Hd Hr Hv Hup.
  rewrite (make_api_request_result _ _ d) by done. cbv zeta.
  destruct Hup as [->|(r & -> & Hs & Hj)].
  - by rewrite except_propagates.
  - rewrite raise_for_status_pass by done. cbn [fst]. rewrite Hj.
    by rewrite except_propagates.
Qed.

(** X3: the clauses are tried in order, so a decoding failure whose exception
    belongs to the [requests] hierarchy is reported as a failed request, with
    the prefix "Rejseplanen API request failed: ", whether or not it is a
    [ValueError] as well. *)
Theorem X3_decoding_failure_of_requests_is_a_failed_request
    (endpoint : string) (params : nat) (d : gmap string string) (w : World)
    (r : Response) (e : PyExc) :
  heap w !! params = Some d →
  upstream (api_request endpoint d) = GetReturns r →
  ¬ (400 ≤ status_code r < 600) →
  json_loads (text r) = Raise e →
  isinstance e ClsTimeout = false →
  isinstance e ClsRequestException = true →
  (make_api_request endpoint params w).1
  = Raise (Exception ("Rejseplanen API request failed: " +:+ exc_str e)).
Proof.
  intros Hd Hup Hs Hj Ht Hr.
  rewrite (make_api_request_result _ _ d) by done. cbv zeta.
  rewrite Hup, raise_for_status_pass by done. cbn [fst]. rewrite Hj.
  by rewrite except_request_exception.
Qed.

(** X4: a second call on the same dict finds [format] already set: it sends
    the same query again, to its own endpoint, and leaves the heap as the
    first call left it. *)
Theorem X4_helper_twice_on_one_dict (endpoint1 endpoint2 : string)
    (params : nat) (d : gmap string string) (w : World) :
  heap w !! params = Some d →
  let w1 := (make_api_request endpoint1 params w).2 in
  let w2 := (make_api_request endpoint2 params w1).2 in
  heap w2 = heap w1
  ∧ ∃ req1 req2,
      sent w2 = sent w ++ [req1; req2]
      ∧ req_params req1 = <[ "format" := "json" ]> d
      ∧ req_params req2 = req_params req1
      ∧ req_url req1 = REJSEPLANEN_API_BASE +:+ "/" +:+ endpoint1
      ∧ req_url req2 = REJSEPLANEN_API_BASE +:+ "/" +:+ endpoint2.
Proof.
  intros Hd w1 w2. subst w2 w1.
  assert (params < length (heap w))%nat as Hlt by by eapply lookup_lt_Some.
  rewrite (make_api_request_world endpoint1 _ d) by done.
  rewrite (make_api_request_world endpoint2 _ (<["format" := "json"]> d))
    by (by apply list_lookup_insert_eq).
  unfold after_request. simpl. rewrite insert_insert_eq.
  split; [by rewrite list_insert_insert_eq|].
  exists (api_request endpoint1 d),
         (api_request endpoint2 (<["format" := "json"]> d)).
  split; [by rewrite <- app_assoc|]. simpl. by rewrite insert_insert_eq.
Qed.

Lemma nearby_stops_cases (latitude longitude : PyFloat)
    (max_radius max_number : Z) :
  (in_range (-90) 90 latitude ∧ in_range (-180) 180 longitude
   ∧ 1 ≤ max_radius ∧ 1 ≤ max_number)
  ∨ (¬ in_range (-90) 90 latitude ∨ ¬ in_range (-180) 180 longitude
     ∨ max_radius < 1 ∨ max_number < 1).
Proof.
  rewrite !in_range_iff.
  destruct (float_le (float_of_int (-90)) latitude
            && float_le latitude (float_of_int 90));
    [|right; left; discriminate].
  destruct (float_le (float_of_int (-180)) longitude
            && float_le longitude (float_of_int 180));
    [|right; right; left; discriminate].
  destruct (Z.lt_ge_cases max_radius 1); [tauto|].
  destruct (Z.lt_ge_cases max_number 1); [tauto|].
  left. repeat split; done || lia.
Qed.

Lemma request_alloc_ok_iff (endpoint : string) (d : gmap string string)
    (w : World) (v : JSON) :
  (make_api_request endpoint (length (heap w)) (alloc d w)).1 = Ok v
  ↔ delivers (api_request endpoint d) v.
Proof. apply make_api_request_ok_iff, alloc_lookup. Qed.

(** X5: a handler returns a value exactly when its arguments pass validation
    and the response to its request passes [raise_for_status] and decodes;
    the value is the decoded body: the handlers add nothing to it and take
    nothing from it. *)
Theorem X5_handlers_return_the_decoded_body (w : World) (v : JSON) :
  (∀ query,
     (location_search query w).1 = Ok v
     ↔ all_space query = false
       ∧ delivers (api_request "location" {[ "input" := strip query ]}) v)
  ∧ (∀ origin_id dest_id date time use_train use_bus use_metro use_ferry,
       (trip_search origin_id dest_id date time use_train use_bus use_metro
                    use_ferry w).1 = Ok v
       ↔ all_space origin_id = false ∧ all_space dest_id = false
         ∧ delivers (api_request "trip"
                       (trip_params origin_id dest_id date time use_train
                                    use_bus use_metro use_ferry)) v)
  ∧ (∀ station_id date time,
       (departure_board station_id date time w).1 = Ok v
       ↔ all_space station_id = false
         ∧ delivers (api_request "departureBoard"
                       (board_params station_id date time)) v)
  ∧ (∀ latitude longitude max_radius max_number,
       (nearby_stops latitude longitude max_radius max_number w).1 = Ok v
       ↔ in_range (-90) 90 latitude ∧ in_range (-180) 180 longitude
         ∧ 1 ≤ max_radius ∧ 1 ≤ max_number
         ∧ delivers (api_request "stopsNearby"
                       (stops_params latitude longitude max_radius
                                     max_number)) v).
Proof.
  split; [|split; [|split]].
  - intros query. destruct (all_space query) eqn:Hq.
    + destruct (location_search_reject query w Hq) as (e & -> & _).
      split; [done|]. by intros [? _].
    + rewrite location_search_run, request_alloc_ok_iff by done.
      fold (location_params query). tauto.
  - intros origin_id dest_id date time use_train use_bus use_metro use_ferry.
    destruct (all_space origin_id) eqn:Ho;
      [|destruct (all_space dest_id) eqn:Hd].
    1,2: edestruct (trip_search_reject origin_id dest_id) as (e & -> & _);
      [eauto|split; [done|by intros (? & ? & _)]].
    rewrite trip_search_run, request_alloc_ok_iff by done. tauto.
  - intros station_id date time. destruct (all_space station_id) eqn:Hs.
    + edestruct (departure_board_reject station_id) as (e & -> & _);
        [eauto|split; [done|by intros [? _]]].
    + rewrite departure_board_run, request_alloc_ok_iff by done. tauto.
  - intros latitude longitude max_radius max_number.
    destruct (nearby_stops_cases latitude longitude max_radius max_number)
      as [(Hlat & Hlon & Hr & Hn)|Hbad].
    + rewrite nearby_stops_run, request_alloc_ok_iff by done. tauto.
    + destruct (nearby_stops_reject latitude longitude max_radius max_number
                  w Hbad) as (e & -> & _).
      split; [done|]. intros (? & ? & ? & ? & _).
      destruct Hbad as [?|[?|[?|?]]]; done || lia.
Qed.

Lemma request_alloc_timeout (endpoint : string) (d : gmap string string)
    (w : World) (e : PyExc) :
  upstream (api_request endpoint d) = GetRaises e →
  isinstance e ClsTimeout = true →
  make_api_request endpoint (length (heap w)) (alloc d w)
  = (Raise (Exception "Request to Rejseplanen API timed out after 30 seconds"),
     after_handler endpoint d w).
Proof.
  intros Hup Ht.
  rewrite (surjective_pairing (make_api_request _ _ _)).
  rewrite request_alloc.
  rewrite (make_api_request_result _ _ d) by apply alloc_lookup. cbv zeta.
  rewrite Hup. by rewrite except_timeout.
Qed.

(** X6: at every endpoint, when the GET of a call that passed validation
    times out, the handler fails with the helper's message naming the 30
    seconds, having built one dict and sent one request: no handler catches
    the failure or tries again. *)
Theorem X6_a_timeout_surfaces_at_every_endpoint (w : World) (e : PyExc) :
  isinstance e ClsTimeout = true →
  let timed_out endpoint d run :=
    upstream (api_request endpoint d) = GetRaises e →
    run = (Raise (Exception
                    "Request to Rejseplanen API timed out after 30 seconds"),
           after_handler endpoint d w) in
  (∀ query,
     all_space query = false →
     timed_out "location" (location_params query) (location_search query w))
  ∧ (∀ origin_id dest_id date time use_train use_bus use_metro use_ferry,
       all_space origin_id = false →
       all_space dest_id = false →
       timed_out "trip"
         (trip_params origin_id dest_id date time use_train use_bus use_metro
                      use_ferry)
         (trip_search origin_id dest_id date time use_train use_bus use_metro
                      use_ferry w))
  ∧ (∀ station_id date time,
       all_space station_id = false →
       timed_out "departureBoard" (board_params station_id date time)
         (departure_board station_id date time w))
  ∧ (∀ latitude longitude max_radius max_number,
       in_range (-90) 90 latitude →
       in_range (-180) 180 longitude →
       1 ≤ max_radius →
       1 ≤ max_number →
       timed_out "stopsNearby"
         (stops_params latitude longitude max_radius max_number)
         (nearby_stops latitude longitude max_radius max_number w)).
Proof.
  intros Ht timed_out. subst timed_out. cbv beta.
  split; [|split; [|split]]; intros.
  - rewrite location_search_run by done. by eapply request_alloc_timeout.
  - rewrite trip_search_run by done. by eapply request_alloc_timeout.
  - rewrite departure_board_run by done. by eapply request_alloc_timeout.
  - rewrite nearby_stops_run by done. by eapply request_alloc_timeout.
Qed.

(** X7: with a non-blank station id, [departure_board] issues one GET to
    [departureBoard], with the 30 second timeout, whose query binds [id] to
    the stripped station id and [format] to [json] and has no key other than
    these two, [date] and [time]; the stripped id is the station id trimmed,
    non-empty and with whitespace at neither end. *)
Theorem X7_departure_board_parameters (station_id : string)
    (date time : option string) (w : World) :
  all_space station_id = false →
  ∃ req,
    sent (departure_board station_id date time w).2 = sent w ++ [req]
    ∧ req_url req = REJSEPLANEN_API_BASE +:+ "/departureBoard"
    ∧ req_timeout req = 30
    ∧ req_params req !! "id" = Some (strip station_id)
    ∧ req_params req !! "format" = Some "json"
    ∧ (∀ k, k ∉ ["id"; "date"; "time"; "format"] → req_params req !! k = None)
    ∧ trimmed_of station_id (strip station_id)
    ∧ strip station_id ≠ "".
Proof.
  intros Hs. rewrite departure_board_run, request_alloc by done.
  eexists. split; [reflexivity|]. split; [reflexivity|].
  split; [reflexivity|]. simpl. unfold board_params.
  split; [|split; [|split; [|split]]].
  - rewrite lookup_insert_ne by done.
    rewrite !with_optional_lookup_ne by done. by simplify_map_eq.
  - apply lookup_insert_eq.
  - intros k Hk.
    rewrite !not_elem_of_cons in Hk. destruct Hk as (? & ? & ? & ? & _).
    rewrite lookup_insert_ne by done.
    rewrite !with_optional_lookup_ne by done. by simplify_map_eq.
  - apply strip_trimmed.
  - intros Hnil. apply strip_nil_iff in Hnil. congruence.
Qed.

(** X8: what [trip_search] sends under any key but [date] and [time] does
    not depend on the date and time arguments: it is originId, destId, the
    four flags and [format], to [trip], with the 30 second timeout. *)
Theorem X8_trip_search_date_and_time_touch_nothing_else
    (origin_id dest_id : string) (date time : option string)
    (use_train use_bus use_metro use_ferry : bool) (w : World) :
  all_space origin_id = false →
  all_space dest_id = false →
  ∃ req,
    sent (trip_search origin_id dest_id date time use_train use_bus use_metro
                      use_ferry w).2 = sent w ++ [req]
    ∧ req_url req = REJSEPLANEN_API_BASE +:+ "/trip"
    ∧ req_timeout req = 30
    ∧ (∀ k, k ≠ "date" → k ≠ "time" →
         req_params req !! k
         = (<[ "format" := "json" ]>
              (<[ "useFerry" := if use_ferry then "1" else "0" ]>
                (<[ "useMetro" := if use_metro then "1" else "0" ]>
                  (<[ "useBus" := if use_bus then "1" else "0" ]>
                    (<[ "useTog" := if use_train then "1" else "0" ]>
                      (<[ "destId" := strip dest_id ]>
                        ({[ "originId" := strip origin_id ]}
                           : gmap string string))))))) !! k).
Proof.
  intros Ho Hd. rewrite trip_search_run, request_alloc by done.
  eexists. split; [reflexivity|]. split; [reflexivity|].
  split; [reflexivity|]. simpl. unfold trip_params, flag.
  intros k Hdate Htime.
  set (ids := <["destId" := strip dest_id]> {["originId" := strip origin_id]}).
  rewrite !lookup_insert. repeat case_decide; try done.
  by rewrite !with_optional_lookup_ne by done.
Qed.

(** X9: the string checks run in the order of the arguments and each names
    what is missing: a blank query is "Search query cannot be empty"; a blank
    origin is "origin_id is required" whatever the destination; a blank
    destination after a good origin is "dest_id is required"; a blank station
    is "station_id is required".  Date, time and flags play no part. *)
Theorem X9_blank_strings_are_named_in_order (w : World) :
  (∀ query,
     all_space query = true →
     location_search query w
     = (Raise (ValueError "Search query cannot be empty"), w))
  ∧ (∀ origin_id dest_id date time use_train use_bus use_metro use_ferry,
       all_space origin_id = true →
       trip_search origin_id dest_id date time use_train use_bus use_metro
                   use_ferry w
       = (Raise (ValueError "origin_id is required"), w))
  ∧ (∀ origin_id dest_id date time use_train use_bus use_metro use_ferry,
       all_space origin_id = false →
       all_space dest_id = true →
       trip_search origin_id dest_id date time use_train use_bus use_metro
                   use_ferry w
       = (Raise (ValueError "dest_id is required"), w))
  ∧ (∀ station_id date time,
       all_space station_id = true →
       departure_board station_id date time w
       = (Raise (ValueError "station_id is required"), w)).
Proof.
  split; [|split; [|split]].
  - intros query Hq. unfold location_search. by rewrite blank_test, Hq.
  - intros origin_id dest_id date time use_train use_bus use_metro use_ferry
      Ho.
    unfold trip_search. by rewrite blank_test, Ho.
  - intros origin_id dest_id date time use_train use_bus use_metro use_ferry
      Ho Hd.
    unfold trip_search. by rewrite !blank_test, Ho, Hd.
  - intros station_id date time Hs. unfold departure_board.
    by rewrite blank_test, Hs.
Qed.

(** X10: [nearby_stops] checks latitude, longitude, radius and number in
    that order and reports the first that fails: a latitude outside
    [-90, 90] (NaN and the infinities included) is reported whatever the
    rest; the longitude only after a good latitude; the radius only after
    good coordinates; the number only after a good radius. *)
Theorem X10_nearby_stops_reports_the_first_failure
    (latitude longitude : PyFloat) (max_radius max_number : Z) (w : World) :
  let run := nearby_stops latitude longitude max_radius max_number w in
  (¬ in_range (-90) 90 latitude →
   run = (Raise (ValueError "Latitude must be between -90 and 90"), w))
  ∧ (in_range (-90) 90 latitude →
     ¬ in_range (-180) 180 longitude →
     run = (Raise (ValueError "Longitude must be between -180 and 180"), w))
  ∧ (in_range (-90) 90 latitude →
     in_range (-180) 180 longitude →
     max_radius < 1 →
     run = (Raise (ValueError "max_radius must be at least 1 meter"), w))
  ∧ (in_range (-90) 90 latitude →
     in_range (-180) 180 longitude →
     1 ≤ max_radius →
     max_number < 1 →
     run = (Raise (ValueError "max_number must be at least 1"), w))
  ∧ (latitude ∈ [NaN; PosInf; NegInf] → ¬ in_range (-90) 90 latitude).
Proof.
  intros run. subst run. unfold nearby_stops. rewrite !in_range_iff.
  split; [|split; [|split; [|split]]].
  - intros Hlat. by destruct (_ && _).
  - intros -> Hlon. by destruct (_ && _).
  - intros -> -> Hr. simpl.
    by destruct (Z.ltb_spec max_radius 1); [|lia].
  - intros -> -> Hr Hn. simpl.
    destruct (Z.ltb_spec max_radius 1); [lia|].
    by destruct (Z.ltb_spec max_number 1); [|lia].
  - intros Hin. apply list_elem_of_In in Hin.
    destruct Hin as [<-|[<-|[<-|[]]]]; simpl; discriminate.
Qed.

(** X11: blanks around a required string change nothing: a handler called
    with the stripped strings behaves as with the strings as given, rejecting
    or requesting alike. *)
Theorem X11_surrounding_blanks_change_nothing (w : World) :
  (∀ query, location_search (strip query) w = location_search query w)
  ∧ (∀ origin_id dest_id date time use_train use_bus use_metro use_ferry,
       trip_search (strip origin_id) (strip dest_id) date time use_train
                   use_bus use_metro use_ferry w
       = trip_search origin_id dest_id date time use_train use_bus use_metro
                     use_ferry w)
  ∧ (∀ station_id date time,
       departure_board (strip station_id) date time w
       = departure_board station_id date time w).
Proof.
  split; [|split]; intros.
  - unfold location_search.
    by rewrite !blank_test, all_space_strip, strip_idemp.
  - unfold trip_search.
    by rewrite !blank_test, !all_space_strip, !strip_idemp.
  - unfold departure_board.
    by rewrite !blank_test, all_space_strip, strip_idemp.
Qed.

(** X12: past its cap a limit makes no difference: [nearby_stops] with a
    radius of 10000 or more behaves as with 10000, and with a number of 50 or
    more as with 50. *)
Theorem X12_limits_past_the_cap_are_the_cap (latitude longitude : PyFloat)
    (max_radius max_number : Z) (w : World) :
  (10000 ≤ max_radius →
   nearby_stops latitude longitude max_radius max_number w
   = nearby_stops latitude longitude 10000 max_number w)
  ∧ (50 ≤ max_number →
     nearby_stops latitude longitude max_radius max_number w
     = nearby_stops latitude longitude max_radius 50 w).
Proof.
  unfold nearby_stops. split.
  - intros Hr. rewrite !clamp_min.
    replace (max_radius <? 1) with false by (symmetry; apply Z.ltb_ge; lia).
    change (10000 <? 1) with false.
    by replace (Z.min max_radius 10000) with (Z.min 10000 10000) by lia.
  - intros Hn. rewrite !clamp_min.
    replace (max_number <? 1) with false by (symmetry; apply Z.ltb_ge; lia).
    change (50 <? 1) with false.
    by replace (Z.min max_number 50) with (Z.min 50 50) by lia.
Qed.

Lemma location_search_world (query : string) (w : World) :
  (location_search query w).2 = w
  ∨ (location_search query w).2
    = after_handler "location" (location_params query) w.
Proof.
  destruct (all_space query) eqn:Hq.
  - destruct (location_search_reject query w Hq) as (e & -> & _). by left.
  - right. by rewrite location_search_run, request_alloc.
Qed.

Lemma trip_search_world (origin_id dest_id : string)
    (date time : option string) (use_train use_bus use_metro use_ferry : bool)
    (w : World) :
  (trip_search origin_id dest_id date time use_train use_bus use_metro
               use_ferry w).2 = w
  ∨ (trip_search origin_id dest_id date time use_train use_bus use_metro
                 use_ferry w).2
    = after_handler "trip"
        (trip_params origin_id dest_id date time use_train use_bus use_metro
                     use_ferry) w.
Proof.
  destruct (all_space origin_id) eqn:Ho;
    [|destruct (all_space dest_id) eqn:Hd].
  1,2: edestruct (trip_search_reject origin_id dest_id) as (e & -> & _);
    [eauto|by left].
  right. by rewrite trip_search_run, request_alloc.
Qed.

Lemma departure_board_world (station_id : string) (date time : option string)
    (w : World) :
  (departure_board station_id date time w).2 = w
  ∨ (departure_board station_id date time w).2
    = after_handler "departureBoard" (board_params station_id date time) w.
Proof.
  destruct (all_space station_id) eqn:Hs.
  - edestruct (departure_board_reject station_id) as (e & -> & _);
      [eauto|by left].
  - right. by rewrite departure_board_run, request_alloc.
Qed.

Lemma nearby_stops_world (latitude longitude : PyFloat)
    (max_radius max_number : Z) (w : World) :
  (nearby_stops latitude longitude max_radius max_number w).2 = w
  ∨ (nearby_stops latitude longitude max_radius max_number w).2
    = after_handler "stopsNearby"
        (stops_params latitude longitude max_radius max_number) w.
Proof.
  destruct (nearby_stops_cases latitude longitude max_radius max_number)
    as [(Hlat & Hlon & Hr & Hn)|Hbad].
  - right. by rewrite nearby_stops_run, request_alloc.
  - destruct (nearby_stops_reject latitude longitude max_radius max_number
                w Hbad) as (e & -> & _). by left.
Qed.

(** The footprint of one handler call from [w] to [w']. *)
Lemma footprint_of_cases (endpoint : string) (d : gmap string string)
    (w w' : World) :
  w' = w ∨ w' = after_handler endpoint d w →
  ∃ dicts reqs,
    heap w' = heap w ++ dicts
    ∧ sent w' = sent w ++ reqs
    ∧ length dicts = length reqs
    ∧ (length reqs ≤ 1)%nat
    ∧ os_environ w' = os_environ w
    ∧ sys_version w' = sys_version w
    ∧ (∀ req, req ∈ reqs →
         req_timeout req = 30
         ∧ req_url req = REJSEPLANEN_API_BASE +:+ "/" +:+ endpoint
         ∧ req_params req !! "format" = Some "json").
Proof.
  intros [->| ->].
  - exists [], []. rewrite !app_nil_r.
    do 6 (split; [done || (simpl; lia)|]).
    intros req Hin. by apply elem_of_nil in Hin.
  - exists [<["format" := "json"]> d], [api_request endpoint d].
    do 6 (split; [done|]).
    intros req ->%list_elem_of_singleton.
    split; [done|]. split; [done|]. simpl. apply lookup_insert_eq.
Qed.

(** X13: a handler call touches no dict that existed before it, nor the
    process environment: it adds as many dicts as it sends requests, at most
    one of each, and every request it sends goes to its own endpoint under
    the base URL, with the 30 second timeout and [format] bound to [json]. *)
Theorem X13_footprint_of_a_handler_call (w : World) :
  let footprint endpoint (w' : World) :=
    ∃ dicts reqs,
      heap w' = heap w ++ dicts
      ∧ sent w' = sent w ++ reqs
      ∧ length dicts = length reqs
      ∧ (length reqs ≤ 1)%nat
      ∧ os_environ w' = os_environ w
      ∧ sys_version w' = sys_version w
      ∧ (∀ req, req ∈ reqs →
           req_timeout req = 30
           ∧ req_url req = REJSEPLANEN_API_BASE +:+ "/" +:+ endpoint
           ∧ req_params req !! "format" = Some "json") in
  (∀ query, footprint "location" (location_search query w).2)
  ∧ (∀ origin_id dest_id date time use_train use_bus use_metro use_ferry,
       footprint "trip"
         (trip_search origin_id dest_id date time use_train use_bus use_metro
                      use_ferry w).2)
  ∧ (∀ station_id date time,
       footprint "departureBoard" (departure_board station_id date time w).2)
  ∧ (∀ latitude longitude max_radius max_number,
       footprint "stopsNearby"
         (nearby_stops latitude longitude max_radius max_number w).2).
Proof.
  intros footprint. subst footprint. cbv beta.
  split; [|split; [|split]]; intros; eapply footprint_of_cases.
  - apply location_search_world.
  - apply trip_search_world.
  - apply departure_board_world.
  - apply nearby_stops_world.
Qed.

(** X14: the record of [get_server_info] takes its [environment] from
    [ENVIRONMENT] whenever that is set, to the empty string too, and is
    "development" only when it is unset; its [python_version] is the first
    word of [sys.version], non-empty and free of whitespace; its [api_base]
    is the base URL the helper requests under. *)
Theorem X14_server_info_fields (w : World) (info : ServerInfo) :
  (get_server_info w).1 = Ok info →
  (∀ label, os_environ w !! "ENVIRONMENT" = Some label →
            environment info = label)
  ∧ (os_environ w !! "ENVIRONMENT" = None → environment info = "development")
  ∧ split (sys_version w) !! 0%nat = Some (python_version info)
  ∧ python_version info ≠ ""
  ∧ no_space (python_version info) = true
  ∧ api_base info = REJSEPLANEN_API_BASE
  ∧ (∀ endpoint d,
       req_url (api_request endpoint d) = api_base info +:+ "/" +:+ endpoint).
Proof.
  unfold get_server_info, mbind, M_bind, os_environ_get, sys_version_get,
    list_getitem, mret, M_ret.
  pose proof (split_words (sys_version w)) as Hwords.
  destruct (split (sys_version w)) as [|word rest]; [done|].
  simpl. intros [= <-]. simpl.
  apply Forall_cons in Hwords as [[Hne Hns] _].
  repeat split; try done.
  - by intros label ->.
  - by intros ->.
Qed.
End extras.

(** ** Concrete runs of the further properties *)

(** X1 at a 200 response with an empty object. *)
Lemma X1_witness :
  (make_api_request (H := platform_ok) "location" 0%nat world_caller).1
  = Ok (JObject []).
Proof.
  apply (proj2 (X1_helper_returns_the_decoded_body (H := platform_ok)
                  "location" 0%nat {[ "format" := "xml" ]} world_caller
                  (JObject []) eq_refl)).
  exists response_ok. split; [reflexivity|].
  split; [simpl; lia|reflexivity].
Defined.

(** X2 at an interrupt from the keyboard during the GET. *)
Lemma X2_witness :
  (make_api_request (H := platform_of (GetRaises keyboard_interrupt))
                    "location" 0%nat world_caller).1
  = Raise keyboard_interrupt.
Proof.
  apply (X2_unrelated_exceptions_propagate
           (H := platform_of (GetRaises keyboard_interrupt))
           "location" 0%nat {[ "format" := "xml" ]} world_caller
           keyboard_interrupt eq_refl eq_refl eq_refl).
  left. reflexivity.
Defined.

(** X3 at a 200 response carrying HTML. *)
Lemma X3_witness :
  (make_api_request (H := platform_of (GetReturns response_garbled))
                    "location" 0%nat world_caller).1
  = Raise (Exception ("Rejseplanen API request failed: "
                      +:+ "Expecting value: line 1 column 1 (char 0)")).
Proof.
  apply (X3_decoding_failure_of_requests_is_a_failed_request
           (H := platform_of (GetReturns response_garbled))
           "location" 0%nat {[ "format" := "xml" ]} world_caller
           response_garbled
           (mkExc ClsRequestsJSONDecodeError
                  "Expecting value: line 1 column 1 (char 0)")).
  - reflexivity.
  - reflexivity.
  - simpl. lia.
  - reflexivity.
  - reflexivity.
  - reflexivity.
Defined.

(** X4 at a caller that asks [location] and then [trip] with one dict. *)
Lemma X4_witness :
  heap (make_api_request (H := platform_ok) "trip" 0%nat
          (make_api_request (H := platform_ok) "location" 0%nat
                            world_caller).2).2
  = heap (make_api_request (H := platform_ok) "location" 0%nat
                           world_caller).2.
Proof.
  apply (proj1 (X4_helper_twice_on_one_dict (H := platform_ok)
                  "location" "trip" 0%nat {[ "format" := "xml" ]}
                  world_caller eq_refl)).
Defined.

(** X6 at a read timeout during a location search. *)
Lemma X6_witness :
  location_search (H := platform_of (GetRaises read_timed_out)) "Aarhus H"
                  world0
  = (Raise (Exception "Request to Rejseplanen API timed out after 30 seconds"),
     after_handler "location" (location_params "Aarhus H") world0).
Proof.
  apply (proj1 (X6_a_timeout_surfaces_at_every_endpoint
                  (H := platform_of (GetRaises read_timed_out))
                  world0 read_timed_out eq_refl) "Aarhus H");
    reflexivity.
Defined.

(** X7 at the station id of the handler's own example, padded. *)
Lemma X7_witness :
  ∃ req,
    sent (departure_board (H := platform_ok) " 008600626  " None None
                          world0).2
    = [req]
    ∧ req_params req !! "id" = Some "008600626".
Proof.
  destruct (X7_departure_board_parameters (H := platform_ok)
              " 008600626  " None None world0 eq_refl)
    as (req & Hsent & _ & _ & Hid & _).
  exists req. split; [exact Hsent|exact Hid].
Defined.

(** X8 at a trip without buses on a given day. *)
Lemma X8_witness :
  ∃ req,
    sent (trip_search (H := platform_ok) "A" "B" (Some "01.02.25")
                      (Some "12:30") true false true true world0).2 = [req]
    ∧ req_params req !! "useBus" = Some "0".
Proof.
  destruct (X8_trip_search_date_and_time_touch_nothing_else
              (H := platform_ok) "A" "B" (Some "01.02.25") (Some "12:30")
              true false true true world0 eq_refl eq_refl)
    as (req & Hsent & _ & _ & Hkeys).
  exists req. split; [exact Hsent|].
  rewrite (Hkeys "useBus") by discriminate. reflexivity.
Defined.

(** X9 at a trip with both ids blank. *)
Lemma X9_witness :
  trip_search (H := platform_ok) "  " "" None None true true true true world0
  = (Raise (ValueError "origin_id is required"), world0).
Proof.
  apply (proj1 (proj2 (X9_blank_strings_are_named_in_order
                         (H := platform_ok) world0))).
  reflexivity.
Defined.

(** X10 at a latitude that is no number, with both limits bad as well. *)
Lemma X10_witness :
  nearby_stops (H := platform_ok) NaN (Fin (25 # 2)) 0 0 world0
  = (Raise (ValueError "Latitude must be between -90 and 90"), world0).
Proof.
  apply (proj1 (X10_nearby_stops_reports_the_first_failure
                  (H := platform_ok) NaN (Fin (25 # 2)) 0 0 world0)).
  intros (q & Heq & _). discriminate.
Defined.

(** X12 at a radius of 50 km. *)
Lemma X12_witness :
  nearby_stops (H := platform_ok) (Fin (111 # 2)) (Fin (25 # 2)) 50000 10
               world0
  = nearby_stops (H := platform_ok) (Fin (111 # 2)) (Fin (25 # 2)) 10000 10
                 world0.
Proof.
  apply (proj1 (X12_limits_past_the_cap_are_the_cap (H := platform_ok)
                  (Fin (111 # 2)) (Fin (25 # 2)) 50000 10 world0)).
  lia.
Defined.

(** X14 at a process whose [ENVIRONMENT] is set and empty. *)
Lemma X14_witness :
  ∃ info,
    (get_server_info world_unlabelled).1 = Ok info
    ∧ environment info = ""
    ∧ split (sys_version world_unlabelled) !! 0%nat = Some (python_version info).
Proof.
  assert (∃ info, (get_server_info world_unlabelled).1 = Ok info)
    as [info Hrun] by (eexists; reflexivity).
  destruct (X14_server_info_fields world_unlabelled info Hrun)
    as (Hlabel & _ & Hword & _).
  exists info. split; [exact Hrun|]. split; [|exact Hword].
  apply Hlabel. reflexivity.
Defined.
